(** * weather_service: the city-forecast endpoint

    A shallow embedding of [weather/services/weather_service.py] and
    [weather/views.py], and the properties of the resolver, the fetcher,
    the aggregator and the request handler.

    Python values are an inductive type with dictionaries as finite maps;
    exceptions and the observable effects (outbound HTTP requests, log
    records) are threaded by a small writer-plus-error monad; the two
    upstream services, the completion order of the worker tasks and the
    clock-related platform behaviour are the fields of a [World]. *)

From Stdlib Require Import ZArith String List Lia Permutation.
From Stdlib Require Import Floats.SpecFloat.
From stdpp Require Import gmap strings list fin_maps pretty.

Local Open Scope string_scope.
Local Open Scope list_scope.

Set Warnings "-register-all".

(** ** Python values *)

(** What [response.json()] can produce, and what the service builds from
    it.  [bool] is kept apart from [int]; a float is an IEEE value. *)
Inductive pyval : Type :=
  | PNone
  | PBool (b : bool)
  | PInt (n : Z)
  | PFloat (f : spec_float)
  | PStr (s : string)
  | PList (l : list pyval)
  | PDict (d : gmap string pyval).

(** [bool(v)]: the truth value Python gives [v] in an [if] or an [and]. *)
Definition py_truthy (v : pyval) : bool :=
  match v with
  | PNone => false
  | PBool b => b
  | PInt n => negb (Z.eqb n 0)
  | PFloat (S754_zero _) => false
  | PFloat _ => true
  | PStr s => negb (String.eqb s "")
  | PList l => negb (Nat.eqb (length l) 0)
  | PDict d => negb (Nat.eqb (size d) 0)
  end.

(** [type(v).__name__], as it appears in error messages. *)
Definition py_type_name (v : pyval) : string :=
  match v with
  | PNone => "NoneType"
  | PBool _ => "bool"
  | PInt _ => "int"
  | PFloat _ => "float"
  | PStr _ => "str"
  | PList _ => "list"
  | PDict _ => "dict"
  end.

(** ** Exceptions and effects *)

(** The exceptions the code can meet, by the classes the handler tells
    apart: [requests.HTTPError], any other [requests.RequestException],
    and any other [Exception] (named by its class). *)
Inductive exn : Type :=
  | HTTPError (status_code : Z) (reason : string)
  | RequestException (kind detail : string)
  | PyError (cls msg : string).

(** An outbound URL [f'{base_url}?{urlencode(query_params)}'], kept as its
    two components. *)
Record request : Type := Request {
  base_url : string;
  query_params : list (string * pyval)
}.

(** What the outside can observe of one run: the outbound GET requests and
    the records written with [logger.error].  A record keeps the fixed text
    of the f-string and the two interpolated values. *)
Inductive event : Type :=
  | HttpGet (url : request)
  | LogError (text city_name : string) (cause : exn).

Inductive outcome (A : Type) : Type :=
  | Return (a : A)
  | Raise (e : exn).
Arguments Return {A} a.
Arguments Raise {A} e.

(** A computation: the events it performed, and how it ended. *)
Definition M (A : Type) : Type := list event * outcome A.

Definition trace {A} (m : M A) : list event := fst m.
Definition result {A} (m : M A) : outcome A := snd m.

#[global] Instance M_ret : MRet M := λ A a, ([], Return a).
#[global] Instance M_bind : MBind M := λ A B f m,
  match snd m with
  | Return a => let rest := f a in (fst m ++ fst rest, snd rest)
  | Raise e => (fst m, Raise e)
  end.

Definition raise {A} (e : exn) : M A := ([], Raise e).
Definition emit (ev : event) : M unit := ([ev], Return tt).

(** A [for] loop that threads the loop's state and stops at the first
    exception. *)
Fixpoint for_each {A S : Type} (body : A → S → M S) (xs : list A) (s : S) : M S :=
  match xs with
  | [] => mret s
  | x :: xs' => s' ← body x s; for_each body xs' s'
  end.

(** ** Operations on values *)

(** [v.get(key)]: only a dict has the method; a missing key gives [None]. *)
Definition py_get (v : pyval) (key : string) : M pyval :=
  match v with
  | PDict d => mret (default PNone (d !! key))
  | _ => raise (PyError "AttributeError"
                  ("'" +:+ py_type_name v +:+ "' object has no attribute 'get'"))
  end.

(** [v[key] = x] on a dict; the other values a response can hold reject it. *)
Definition py_setitem (v : pyval) (key : string) (x : pyval) : M pyval :=
  match v with
  | PDict d => mret (PDict (<[key := x]> d))
  | _ => raise (PyError "TypeError"
                  ("'" +:+ py_type_name v +:+ "' object does not support item assignment"))
  end.

Fixpoint chars (s : string) : list pyval :=
  match s with
  | EmptyString => []
  | String c s' => PStr (String c EmptyString) :: chars s'
  end.

(** [iter(v)]: the items a [for] loop visits. *)
Definition py_iter (v : pyval) : M (list pyval) :=
  match v with
  | PList l => mret l
  | PDict d => mret (PStr <$> (map_to_list d).*1)
  | PStr s => mret (chars s)
  | _ => raise (PyError "TypeError"
                  ("'" +:+ py_type_name v +:+ "' object is not iterable"))
  end.

(** ** The HTTP client *)

(** What one GET meets: no response at all (connection error, timeout), or
    a response with its status line and its body read as JSON ([None] when
    the body is not JSON). *)
Inductive http_result : Type :=
  | NoResponse (kind detail : string)
  | Response (status_code : Z) (reason : string) (body : option pyval).

Record response : Type := MkResponse {
  resp_status : Z;
  resp_reason : string;
  resp_body : option pyval
}.

Definition requests_get (upstream : request → http_result) (url : request) : M response :=
  _ ← emit (HttpGet url);
  match upstream url with
  | NoResponse kind detail => raise (RequestException kind detail)
  | Response s r b => mret (MkResponse s r b)
  end.

Definition raise_for_status (r : response) : M unit :=
  if Z.leb 400 (resp_status r) && Z.ltb (resp_status r) 600
  then raise (HTTPError (resp_status r) (resp_reason r))
  else mret tt.

Definition json (r : response) : M pyval :=
  match resp_body r with
  | Some v => mret v
  | None => raise (RequestException "JSONDecodeError" "Expecting value")
  end.

(** ** The world of one inbound request *)

(** Everything outside the program that one request depends on: the two
    upstream services (the weather service answers worker task [i]), the
    choices that fix in which order the worker tasks complete, and the
    platform's clock data: the offset of local time from UTC in force at an
    instant, in seconds, and the whole seconds CPython takes from a float
    timestamp (an IEEE rounding that is left to the platform). *)
Record World : Type := MkWorld {
  places_api : request → http_result;
  weather_api : nat → request → http_result;
  completion : list nat;
  utcoffset : Z → Z;
  float_timestamp : spec_float → outcome Z
}.

(** ** Boolean operators *)

(** [a and b]: [b] is evaluated only when [a] is truthy. *)
Definition py_and (a b : M pyval) : M pyval :=
  x ← a; if py_truthy x then b else mret x.

(** ** Dates: [datetime.datetime.fromtimestamp(...).strftime('%Y-%m-%d')] *)

(** The part of the [datetime] library and of the C library below it that
    the fetcher's one expression uses: the proleptic Gregorian calendar
    (the ordinal of a date and the date of an ordinal), the local
    broken-down time of a Unix timestamp given the offset from UTC then in
    force, the library's search for a repeated local hour, which looks at
    up to two earlier instants, and the three directives of the format: the
    year as the C library writes it, without padding, the month and the day
    with two digits. *)

Definition MINYEAR : Z := 1.
Definition MAXYEAR : Z := 9999.

Definition is_leap (year : Z) : bool :=
  Z.eqb (year mod 4) 0 && (negb (Z.eqb (year mod 100) 0) || Z.eqb (year mod 400) 0).

Definition days_in_month (year month : Z) : Z :=
  if Z.eqb month 2 then (if is_leap year then 29 else 28)
  else if Z.eqb month 4 || Z.eqb month 6 || Z.eqb month 9 || Z.eqb month 11 then 30
  else 31.

(** Days in the year before the first day of [month]. *)
Definition days_before_month (year month : Z) : Z :=
  nth (Z.to_nat month) [0; 0; 31; 59; 90; 120; 151; 181; 212; 243; 273; 304; 334]%Z 0%Z
  + (if Z.ltb 2 month && is_leap year then 1 else 0).

(** Days before January 1st of [year], counted from 0001-01-01. *)
Definition days_before_year (year : Z) : Z :=
  let y := (year - 1)%Z in (y * 365 + y / 4 - y / 100 + y / 400)%Z.

(** The proleptic Gregorian ordinal of a date: 0001-01-01 is day 1. *)
Definition ymd2ord (year month day : Z) : Z :=
  (days_before_year year + days_before_month year month + day)%Z.

(** The date of an ordinal, by the 400/100/4/1-year cycles; the years
    before year 1 are numbered 0, -1, ... *)
Definition ord2ymd (ordinal : Z) : Z * Z * Z :=
  let n := (ordinal - 1)%Z in
  let n400 := (n / 146097)%Z in
  let n := (n mod 146097)%Z in
  let n100 := (n / 36524)%Z in
  let n := (n mod 36524)%Z in
  let n4 := (n / 1461)%Z in
  let n := (n mod 1461)%Z in
  let n1 := (n / 365)%Z in
  let n := (n mod 365)%Z in
  let year := (n400 * 400 + 1 + n100 * 100 + n4 * 4 + n1)%Z in
  if Z.eqb n1 4 || Z.eqb n100 4 then ((year - 1)%Z, 12%Z, 31%Z)
  else
    let month := ((n + 50) / 32)%Z in
    let preceding := days_before_month year month in
    if Z.ltb n preceding
    then (year, (month - 1)%Z, (n - (preceding - days_in_month year (month - 1)) + 1)%Z)
    else (year, month, (n - preceding + 1)%Z).

(** The ordinal of 1970-01-01, that instant in seconds from 0001-01-01,
    and the span in which the library looks for a repeated local hour. *)
Definition EPOCH_ORDINAL : Z := 719163.
Definition epoch : Z := 719163 * 24 * 60 * 60.
Definition max_fold_seconds : Z := 24 * 3600.

(** The C type [int], and what an [int] holds after an addition that
    leaves its range. *)
Definition INT_MIN : Z := - 2 ^ 31.
Definition INT_MAX : Z := 2 ^ 31 - 1.
Definition wrap_int (z : Z) : Z := ((z - INT_MIN) mod 2 ^ 32 + INT_MIN)%Z.

(** The broken-down time of the C library: [tm_year] counts from 1900 and
    [tm_mon] from 0. *)
Record tm : Type := MkTm {
  tm_year : Z; tm_mon : Z; tm_mday : Z;
  tm_hour : Z; tm_min : Z; tm_sec : Z
}.

Record datetime : Type := MkDatetime {
  year : Z; month : Z; day : Z;
  hour : Z; minute : Z; second : Z;
  fold : bool
}.

(** [localtime_r] as the interpreter calls it: the local broken-down time
    of the instant [t], that is the calendar date and the time of day of
    [t] shifted by the offset from UTC in force at [t]; it fails, and the
    interpreter raises [OSError], when the year does not fit [tm_year]. *)
Definition localtime (w : World) (t : Z) : M tm :=
  let local := (t + utcoffset w t)%Z in
  let sod := (local mod 86400)%Z in
  let '(y, m, d) := ord2ymd (local / 86400 + EPOCH_ORDINAL) in
  if Z.leb INT_MIN (y - 1900) && Z.leb (y - 1900) INT_MAX
  then mret (MkTm (y - 1900) (m - 1) d (sod / 3600) (sod mod 3600 / 60) (sod mod 60))
  else raise (PyError "OSError" "[Errno 75] Value too large for defined data type").

(** Seconds from 0001-01-01 of a broken-down time; the year must be one
    the [datetime] type has. *)
Definition utc_to_seconds (year month day hour minute second : Z) : M Z :=
  if Z.ltb year MINYEAR || Z.ltb MAXYEAR year
  then raise (PyError "ValueError" ("year " +:+ pretty year +:+ " is out of range"))
  else
    let ordinal := ymd2ord year month day in
    mret ((((ordinal * 24 + hour) * 60 + minute) * 60 + second)%Z).

(** The local time, in seconds from 0001-01-01, of the instant that is [u]
    seconds from 0001-01-01 in UTC. *)
Definition local (w : World) (u : Z) : M Z :=
  local_time ← localtime w (u - epoch);
  utc_to_seconds (wrap_int (tm_year local_time + 1900)) (tm_mon local_time + 1)
                 (tm_mday local_time) (tm_hour local_time) (tm_min local_time)
                 (tm_sec local_time).

(** [datetime.datetime.fromtimestamp(timestamp)], local time, as the
    interpreter's C code does it on a platform whose [time_t] has 64 bits.
    An integer (or a bool) is a number of seconds; a float goes through the
    platform; anything else is a type error.  The instant is broken down by
    [localtime]; then, to find out whether the local hour is a repeated
    one, so are the instant a day earlier and, if the offset from UTC went
    down in that day, the instant that much earlier: each of the three must
    be broken down and fall in the years 1..9999. *)
Definition fromtimestamp (w : World) (timestamp : pyval) : M datetime :=
  timet ← match timestamp with
          | PInt n => mret n
          | PBool b => mret (if b then 1%Z else 0%Z)
          | PFloat f => ([], float_timestamp w f)
          | _ => raise (PyError "TypeError"
                   ("'" +:+ py_type_name timestamp
                    +:+ "' object cannot be interpreted as an integer"))
          end;
  if Z.leb (- 2 ^ 63) timet && Z.ltb timet (2 ^ 63) then
    tm ← localtime w timet;
    let year := wrap_int (tm_year tm + 1900) in
    let month := (tm_mon tm + 1)%Z in
    let day := tm_mday tm in
    let hour := tm_hour tm in
    let minute := tm_min tm in
    let second := Z.min 59 (tm_sec tm) in
    result_seconds ← utc_to_seconds year month day hour minute second;
    probe_seconds ← local w (epoch + timet - max_fold_seconds);
    let transition := (result_seconds - probe_seconds - max_fold_seconds)%Z in
    fold ← (if Z.ltb transition 0
            then probe_seconds ← local w (epoch + timet + transition);
                 mret (Z.eqb probe_seconds result_seconds)
            else mret false);
    mret (MkDatetime year month day hour minute second fold)
  else raise (PyError "OverflowError" "timestamp out of range for platform time_t").

Definition digit (n : Z) : Ascii.ascii :=
  Ascii.ascii_of_nat (48 + Z.to_nat (n mod 10)).

(** A number written with exactly two, or exactly four, decimal digits. *)
Definition dec2 (n : Z) : string :=
  String (digit (n / 10)) (String (digit n) EmptyString).
Definition dec4 (n : Z) : string :=
  String (digit (n / 1000)) (String (digit (n / 100)) (dec2 n)).

(** A number from 0 to 9999 written in decimal, without padding. *)
Definition numeral (n : Z) : string :=
  if Z.ltb n 10 then String (digit n) EmptyString
  else if Z.ltb n 100 then dec2 n
  else if Z.ltb n 1000 then String (digit (n / 100)) (dec2 n)
  else dec4 n.

(** [when.strftime('%Y-%m-%d')], as the C library formats it: the year in
    decimal without padding (the year of a [datetime] has one to four
    digits), the month and the day with two digits. *)
Definition strftime_Ymd (when : datetime) : string :=
  numeral (year when) +:+ "-" +:+ dec2 (month when) +:+ "-" +:+ dec2 (day when).

(** ** Futures *)

(** A future holds how its task ended. *)
Record future : Type := MkFuture { fut_outcome : outcome pyval }.

(** [executor.submit(task)]: the task runs in a worker, so its events
    happen but its exception stays in the future.  The workers run at the
    same time and the order of their events among themselves is the
    scheduler's; the trace lists them in the order of submission, as one
    of the orders that can happen, and a property of the requests of
    several tasks is stated up to their order. *)
Definition submit (task : M pyval) : M future :=
  (fst task, Return (MkFuture (snd task))).

(** [future.result()]: the task's value, or its exception raised again. *)
Definition future_result (f : future) : M pyval := ([], fut_outcome f).

(** [as_completed(pending)]: each pending item exactly once, in the order
    the tasks complete.  The order is the world's: each choice picks
    which of the items still pending completes next. *)
Fixpoint as_completed_from {A : Type} (fuel : nat) (choices : list nat)
    (pending : list A) : list A :=
  match fuel with
  | O => []
  | S fuel' =>
      let k := (hd O choices mod length pending)%nat in
      match pending !! k with
      | Some x => x :: as_completed_from fuel' (tl choices) (delete k pending)
      | None => []
      end
  end.

Definition as_completed {A : Type} (choices : list nat) (pending : list A) : list A :=
  as_completed_from (length pending) choices pending.

(** ** The web framework *)

(** The inbound request: its query string, as the pairs in order. *)
Record HttpRequest : Type := MkHttpRequest { GET : list (string * string) }.

(** [QueryDict.get(key)]: the last value given for [key], if any. *)
Definition QueryDict_get (q : list (string * string)) (key : string) : option string :=
  last (snd <$> filter (λ kv, fst kv = key) q).

Record JsonResponse : Type := MkJsonResponse {
  content : pyval;
  status : Z
}.

(** [try: body except Exception as e: handler e]. *)
Definition try_except {A : Type} (body : M A) (handler : exn → M A) : M A :=
  match snd body with
  | Return _ => body
  | Raise e => (fst body ++ fst (handler e), snd (handler e))
  end.

(** ** [weather/services/weather_service.py] *)

Module WeatherService.

(** The resolver. *)
Definition get_city_coordinates (w : World) (city_name : string) : M pyval :=
  let base_url := "https://search.reservamos.mx/api/v2/places" in
  let query_params := [("q", PStr city_name)] in
  let reservamos_api_url := Request base_url query_params in
  response ← requests_get (places_api w) reservamos_api_url;
  _ ← raise_for_status response;
  data ← json response;
  if py_truthy data then
    items ← py_iter data;
    data_aux ← for_each (λ res data_aux,
      test ← py_and (py_get res "id") (py_and (py_get res "lat") (py_get res "long"));
      if py_truthy test then
        id ← py_get res "id";
        lat ← py_get res "lat";
        long ← py_get res "long";
        name ← py_get res "city_name";
        let dict_aux : gmap string pyval :=
          <["city_name" := name]> (<["long" := long]> (<["lat" := lat]> (<["id" := id]> ∅))) in
        mret (data_aux ++ [PDict dict_aux])
      else mret data_aux) items [];
    mret (PList data_aux)
  else mret (PDict ∅).

(** The fetcher. *)
Definition get_city_weather (w : World) (upstream : request → http_result)
    (lat long : pyval) : M pyval :=
  let base_url := "https://api.openweathermap.org/data/2.5/onecall" in
  let owm_api_key := "46a187ce0fe63dd82859450fb71017fd" in
  let query_params :=
    [("lat", lat); ("lon", long);
     ("exclude", PStr "current,minutely,hourly,alerts");
     ("appid", PStr owm_api_key); ("units", PStr "metric")] in
  let owm_api_url := Request base_url query_params in
  response ← requests_get upstream owm_api_url;
  _ ← raise_for_status response;
  data ← json response;
  test ← py_and (mret data) (py_get data "daily");
  if py_truthy test then
    daily ← py_get data "daily";
    days ← py_iter daily;
    forecast_data ← for_each (λ day forecast_data,
      dt ← py_get day "dt";
      when ← fromtimestamp w dt;
      let d_aux : gmap string pyval := <["datetime" := PStr (strftime_Ymd when)]> ∅ in
      temp ← py_get day "temp";
      temp_min ← py_get temp "min";
      let d_aux := <["temp_min" := temp_min]> d_aux in
      temp ← py_get day "temp";
      temp_max ← py_get temp "max";
      let d_aux := <["temp_max" := temp_max]> d_aux in
      mret (forecast_data ++ [PDict d_aux])) days [];
    mret (PList forecast_data)
  else mret (PList []).

(** The aggregator. *)
Definition get_city_and_weather_info (w : World) (city_name : string) : M pyval :=
  let results : list pyval := [] in
  city_coordinates ← get_city_coordinates w city_name;
  if negb (py_truthy city_coordinates) then mret (PList results)
  else
    cities ← py_iter city_coordinates;
    future_to_city ← for_each (λ city_res submitted,
      lat ← py_get city_res "lat";
      long ← py_get city_res "long";
      fut ← submit (get_city_weather w (weather_api w (length submitted)) lat long);
      mret (submitted ++ [(fut, city_res)])) cities [];
    results ← for_each (λ '(fut, city_res) results,
      city_weather ← future_result fut;
      city_res ← py_setitem city_res "weather" city_weather;
      mret (results ++ [city_res])) (as_completed (completion w) future_to_city) results;
    mret (PList results).

End WeatherService.

(** ** [weather/views.py] *)

Module WeatherForecastView.

Definition error_response (message : string) (status : Z) : JsonResponse :=
  MkJsonResponse (PDict {["error" := PStr message]}) status.

Definition get (w : World) (request : HttpRequest) : M JsonResponse :=
  let city_name := QueryDict_get (GET request) "city" in
  if negb (py_truthy (from_option PStr PNone city_name))
  then mret (error_response "City name is required" 400)
  else
    let city_name := default "" city_name in
    try_except
      (result ← WeatherService.get_city_and_weather_info w city_name;
       if negb (py_truthy result)
       then mret (error_response "City not found" 404)
       else mret (MkJsonResponse result 200))
      (λ err,
        match err with
        | HTTPError _ _ =>
            _ ← emit (LogError "HTTP error occurred for city" city_name err);
            mret (error_response "An error occurred, please try again later." 500)
        | RequestException _ _ =>
            _ ← emit (LogError "Request error occurred for city" city_name err);
            mret (error_response "An error occurred, please try again later." 500)
        | PyError _ _ =>
            _ ← emit (LogError "An unexpected error occurred for city" city_name err);
            mret (error_response "An error occurred, please try again later." 500)
        end).

End WeatherForecastView.

(** ** Vocabulary of the properties *)

(** The value under [key] of a JSON object, [None] when there is none:
    what [v.get(key)] returns when it returns. *)
Definition field (v : pyval) (key : string) : pyval :=
  match v with
  | PDict d => default PNone (d !! key)
  | _ => PNone
  end.

Definition is_dict (v : pyval) : Prop := ∃ d, v = PDict d.

Definition is_list (v : pyval) : Prop := ∃ l, v = PList l.

(** The object [v] has the key, whatever the value. *)
Definition present (v : pyval) (key : string) : bool :=
  match v with
  | PDict d => bool_decide (is_Some (d !! key))
  | _ => false
  end.

(** The three coordinate fields are all present. *)
Definition all_present (res : pyval) : bool :=
  present res "id" && present res "lat" && present res "long".

(** The three coordinate fields are all truthy. *)
Definition all_truthy (res : pyval) : bool :=
  py_truthy (field res "id") && py_truthy (field res "lat")
  && py_truthy (field res "long").

(** A candidate record. *)
Definition candidate (id lat long city_name : pyval) : pyval :=
  PDict (<["city_name" := city_name]> (<["long" := long]>
          (<["lat" := lat]> (<["id" := id]> ∅)))).

(** An upstream result projected to the four fields of a candidate. *)
Definition candidate_of (res : pyval) : pyval :=
  candidate (field res "id") (field res "lat") (field res "long")
            (field res "city_name").

(** A status on which [raise_for_status] stays silent. *)
Definition status_ok (s : Z) : Prop := ¬ (400 ≤ s < 600)%Z.

Definition places_url (city_name : string) : request :=
  Request "https://search.reservamos.mx/api/v2/places" [("q", PStr city_name)].

Definition onecall_url (lat long : pyval) : request :=
  Request "https://api.openweathermap.org/data/2.5/onecall"
    [("lat", lat); ("lon", long);
     ("exclude", PStr "current,minutely,hourly,alerts");
     ("appid", PStr "46a187ce0fe63dd82859450fb71017fd");
     ("units", PStr "metric")].

(** The events that are calls of the fetcher's upstream. *)
Definition is_fetch (ev : event) : bool :=
  match ev with
  | HttpGet url => String.eqb (base_url url) "https://api.openweathermap.org/data/2.5/onecall"
  | LogError _ _ _ => false
  end.

(** The local calendar date of the instant [t]. *)
Definition local_date (w : World) (t : Z) : Z * Z * Z :=
  ord2ymd ((t + utcoffset w t) / 86400 + EPOCH_ORDINAL).

(** A date written YYYY-MM-DD. *)
Definition date_string (ymd : Z * Z * Z) : string :=
  let '(y, m, d) := ymd in dec4 y +:+ "-" +:+ dec2 m +:+ "-" +:+ dec2 d.

(** The local time of the world is less than a day away from UTC, as it
    is in every time zone. *)
Definition clock_ok (w : World) : Prop :=
  ∀ t, (- 86400 < utcoffset w t < 86400)%Z.

(** A timestamp whose local date is in a year of four digits, the last
    one left out. *)
Definition timestamp_ok (w : World) (t : Z) : Prop :=
  (1000 ≤ (local_date w t).1.1 ≤ 9998)%Z.


(** An entry of the upstream [daily] array that follows the schema and
    whose timestamp [dt] has its local date in the years 1000 to 9998. *)
Definition daily_entry (w : World) (day : pyval) : Prop :=
  ∃ t, is_dict day ∧ field day "dt" = PInt t ∧ timestamp_ok w t
       ∧ is_dict (field day "temp").

(** A forecast record. *)
Definition forecast (datetime : string) (temp_min temp_max : pyval) : pyval :=
  PDict (<["temp_max" := temp_max]> (<["temp_min" := temp_min]>
          (<["datetime" := PStr datetime]> ∅))).

(** The forecast record of an entry. *)
Definition forecast_of (w : World) (day : pyval) : pyval :=
  match field day "dt" with
  | PInt t =>
      forecast (date_string (local_date w t))
               (field (field day "temp") "min") (field (field day "temp") "max")
  | _ => PNone
  end.

(** The number that a string of decimal digits writes. *)
Definition digit_value (c : Ascii.ascii) : Z := (Z.of_nat (Ascii.nat_of_ascii c) - 48)%Z.

Fixpoint number_from (acc : Z) (s : string) : Z :=
  match s with
  | EmptyString => acc
  | String c s' => number_from (10 * acc + digit_value c)%Z s'
  end.

Definition number_of (s : string) : Z := number_from 0 s.



(** The fetch that worker task [i] performs for candidate [c]. *)
Definition fetch_task (w : World) (i : nat) (c : pyval) : M pyval :=
  WeatherService.get_city_weather w (weather_api w i) (field c "lat") (field c "long").

(** The futures of the candidates [cs], submitted from task [k] on. *)
Fixpoint futures_from (w : World) (k : nat) (cs : list pyval) : list (future * pyval) :=
  match cs with
  | [] => []
  | c :: cs' => (MkFuture (snd (fetch_task w k c)), c) :: futures_from w (S k) cs'
  end.

(** The events of those tasks. *)
Fixpoint fetch_events (w : World) (k : nat) (cs : list pyval) : list event :=
  match cs with
  | [] => []
  | c :: cs' => fst (fetch_task w k c) ++ fetch_events w (S k) cs'
  end.

(** [tr] happened, then [m]. *)
Definition prefix {A} (tr : list event) (m : M A) : M A := (tr ++ fst m, snd m).

(** A computation that performs no event. *)
Definition silent {A} (m : M A) : Prop := trace m = [].

(** The candidate [c] with its forecast attached. *)
Definition with_weather (c weather : pyval) : pyval :=
  match c with
  | PDict d => PDict (<["weather" := weather]> d)
  | _ => c
  end.

(** What the aggregator makes of a completed future and its candidate. *)
Definition enriched (p : future * pyval) : pyval :=
  match fut_outcome p.1 with
  | Return weather => with_weather p.2 weather
  | Raise _ => p.2
  end.

(** The fixed text of the log record written for an exception. *)
Definition log_text (e : exn) : string :=
  match e with
  | HTTPError _ _ => "HTTP error occurred for city"
  | RequestException _ _ => "Request error occurred for city"
  | PyError _ _ => "An unexpected error occurred for city"
  end.

(** An item of the aggregator's output whose [weather] field is a list. *)
Definition has_weather_list (item : pyval) : Prop :=
  ∃ d l, item = PDict d ∧ d !! "weather" = Some (PList l).

(** ** Sample worlds *)

(** A place-search result, and a world whose place search answers with a
    given JSON body and whose weather service answers every task alike. *)
Definition place (id lat long city_name : pyval) : pyval :=
  PDict (<["state" := PStr "Jalisco"]> (<["city_name" := city_name]>
          (<["long" := long]> (<["lat" := lat]> (<["id" := id]> ∅))))).

Definition daily (t lo hi : Z) : pyval :=
  PDict (<["temp" := PDict (<["max" := PInt hi]> (<["min" := PInt lo]> ∅))]>
          (<["dt" := PInt t]> ∅)).

Definition sample_world (places weather : http_result) : World :=
  MkWorld (λ _, places) (λ _ _, weather) [1%nat]
          (λ _, (-21600)%Z) (λ _, Raise (PyError "ValueError" "not a timestamp")).

Definition week : pyval :=
  PDict (<["daily" := PList [daily 1700000000 10 20; daily 1700086400 11 21]]> ∅).

(** The place search finds a place whose [id] is the number 0. *)
Definition world_zero_id : World :=
  sample_world
    (Response 200 "OK" (Some (PList [place (PInt 0) (PStr "20.67") (PStr "-103.35") (PStr "Guadalajara")])))
    (Response 200 "OK" (Some week)).

(** The place search finds nothing. *)
Definition world_no_match : World :=
  sample_world (Response 200 "OK" (Some (PList []))) (Response 200 "OK" (Some week)).

(** The place search finds a place whose [city_name] is the empty string. *)
Definition world_blank_name : World :=
  sample_world
    (Response 200 "OK" (Some (PList [place (PInt 7) (PStr "20.67") (PStr "-103.35") (PStr "")])))
    (Response 200 "OK" (Some week)).

(** The place search finds two places; every forecast arrives. *)
Definition world_two_places : World :=
  sample_world
    (Response 200 "OK" (Some (PList [place (PInt 7) (PStr "20.67") (PStr "-103.35") (PStr "Guadalajara");
                                     place (PInt 8) (PStr "40.63") (PStr "-3.16") PNone])))
    (Response 200 "OK" (Some week)).


(** The place search is down. *)
Definition world_places_down : World :=
  sample_world (NoResponse "ConnectionError" "Connection refused")
               (Response 200 "OK" (Some week)).

(** The same two places; the weather service answers 401. *)
Definition world_weather_down : World :=
  sample_world
    (Response 200 "OK" (Some (PList [place (PInt 7) (PStr "20.67") (PStr "-103.35") (PStr "Guadalajara");
                                     place (PInt 8) (PStr "40.63") (PStr "-3.16") PNone])))
    (Response 401 "Unauthorized" None).

(** A world at UTC whose weather service sends one entry, for the
    instant [t]. *)
Definition world_utc (t : Z) : World :=
  MkWorld (λ _, NoResponse "ConnectionError" "Connection refused")
          (λ _ _, Response 200 "OK" (Some (PDict (<["daily" := PList [daily t 10 20]]> ∅))))
          [] (λ _, 0%Z) (λ _, Raise (PyError "ValueError" "not a timestamp")).

(** ** Vocabulary of the further properties *)


(** The events that are log records. *)
Definition is_log (ev : event) : bool :=
  match ev with
  | HttpGet _ => false
  | LogError _ _ _ => true
  end.

(** The request of the fetch for candidate [c]. *)
Definition fetch_request (c : pyval) : event :=
  HttpGet (onecall_url (field c "lat") (field c "long")).

(** The keys of a candidate record. *)
Definition candidate_keys : gset string := {["id"; "lat"; "long"; "city_name"]}.

(** A value that [fromtimestamp] refuses by its type. *)
Definition not_timestamp (v : pyval) : Prop :=
  match v with
  | PInt _ | PBool _ | PFloat _ => False
  | _ => True
  end.

(** An entry of [daily] that is not an object, or whose [dt] is no number,
    or whose [temp] is not an object. *)
Definition malformed_entry (day : pyval) : Prop :=
  ¬ is_dict day ∨ not_timestamp (field day "dt") ∨ ¬ is_dict (field day "temp").

(** The one body of every 500 answer. *)
Definition generic_error : JsonResponse :=
  MkJsonResponse (PDict {["error" := PStr "An error occurred, please try again later."]}) 500.

(** The local day number of the instant [t]. *)
Definition local_day (w : World) (t : Z) : Z := ((t + utcoffset w t) / 86400)%Z.

(** The place search answers 503. *)
Definition world_places_error : World :=
  sample_world (Response 503 "Service Unavailable" None)
               (Response 200 "OK" (Some week)).

(** The place search answers with the JSON value null. *)
Definition world_null_body : World :=
  sample_world (Response 200 "OK" (Some PNone)) (Response 200 "OK" (Some week)).



(** The weather service sends an entry without [temp]. *)
Definition world_bad_entry : World :=
  sample_world
    (Response 200 "OK" (Some (PList [place (PInt 7) (PStr "20.67") (PStr "-103.35") (PStr "Guadalajara")])))
    (Response 200 "OK"
       (Some (PDict (<["daily" := PList [daily 1700000000 10 20;
                                         PDict (<["dt" := PInt 1700086400]> ∅)]]> ∅)))).

(** The weather service sends three entries, the first two for instants of
    the same local day. *)
Definition world_same_day : World :=
  sample_world
    (Response 200 "OK" (Some (PList [place (PInt 7) (PStr "20.67") (PStr "-103.35") (PStr "Guadalajara")])))
    (Response 200 "OK"
       (Some (PDict (<["daily" := PList [daily 1700000000 10 20; daily 1700003600 12 22;
                                         daily 1700086400 11 21]]> ∅)))).

(** The weather service sends [daily] as null. *)
Definition world_daily_null : World :=
  sample_world
    (Response 200 "OK" (Some (PList [place (PInt 7) (PStr "20.67") (PStr "-103.35") (PStr "Guadalajara")])))
    (Response 200 "OK" (Some (PDict (<["daily" := PNone]> ∅)))).

(** ** The monad *)

Lemma bind_mret {A B} (a : A) (f : A → M B) : (mret a ≫= f) = f a.
Proof. unfold mbind, M_bind, mret, M_ret; simpl. by destruct (f a). Qed.

Lemma bind_raise {A B} (e : exn) (f : A → M B) : (raise e ≫= f) = raise e.
Proof. reflexivity. Qed.

Lemma result_bind {A B} (m : M A) (f : A → M B) :
  result (m ≫= f) = match result m with Return a => result (f a) | Raise e => Raise e end.
Proof. unfold result, mbind, M_bind. by destruct (snd m). Qed.

Lemma trace_bind {A B} (m : M A) (f : A → M B) :
  trace (m ≫= f) = match result m with Return a => trace m ++ trace (f a) | Raise e => trace m end.
Proof. unfold trace, result, mbind, M_bind. by destruct (snd m). Qed.

Lemma run_eta {A} (m : M A) : m = (trace m, result m).
Proof. by destruct m. Qed.

(** A loop whose body only appends to the accumulator, and neither raises
    nor performs an event on the items that satisfy [P]. *)
Lemma for_each_collect {A B} (P : A → Prop) (g : A → list B)
    (body : A → list B → M (list B)) :
  (∀ x acc, P x → body x acc = mret (acc ++ g x)) →
  ∀ xs acc, Forall P xs → for_each body xs acc = mret (acc ++ concat (g <$> xs)).
Proof.
  intros Hbody xs. induction xs as [|x xs IH]; intros acc HP; simpl.
  - by rewrite app_nil_r.
  - inversion HP; subst. rewrite Hbody by done. rewrite bind_mret, IH by done.
    by rewrite <- app_assoc.
Qed.

Lemma concat_filter_map {A B} (keep : A → bool) (f : A → B) (xs : list A) :
  concat ((λ x, if keep x then [f x] else []) <$> xs) = f <$> List.filter keep xs.
Proof.
  induction xs as [|x xs IH]; [done|].
  rewrite fmap_cons, concat_cons, IH. simpl. by destruct (keep x).
Qed.

Lemma bind_assoc {A B C} (m : M A) (f : A → M B) (g : B → M C) :
  ((m ≫= f) ≫= g) = (m ≫= λ x, f x ≫= g).
Proof.
  destruct m as [tr [a|e]]; [|done].
  unfold mbind, M_bind; simpl. destruct (f a) as [tr' [b|e]]; simpl; [|done].
  by rewrite app_assoc.
Qed.

Lemma emit_bind {B} (ev : event) (f : unit → M B) : (emit ev ≫= f) = prefix [ev] (f tt).
Proof. reflexivity. Qed.

Lemma prefix_bind {A B} tr (m : M A) (f : A → M B) :
  (prefix tr m ≫= f) = prefix tr (m ≫= f).
Proof.
  destruct m as [tr' [a|e]]; [|done].
  unfold prefix, mbind, M_bind; simpl. by rewrite app_assoc.
Qed.

Lemma py_get_dict (v : pyval) key : is_dict v → py_get v key = mret (field v key).
Proof. by intros [d ->]. Qed.

Lemma raise_for_status_ok s reason body :
  status_ok s → raise_for_status (MkResponse s reason body) = mret tt.
Proof.
  unfold status_ok, raise_for_status; simpl. intros H.
  destruct (Z.leb_spec 400 s), (Z.ltb_spec s 600); simpl; try done. lia.
Qed.

Lemma raise_for_status_error s reason body :
  (400 ≤ s < 600)%Z → raise_for_status (MkResponse s reason body) = raise (HTTPError s reason).
Proof.
  unfold raise_for_status; simpl. intros H.
  destruct (Z.leb_spec 400 s), (Z.ltb_spec s 600); simpl; try done; lia.
Qed.

Lemma json_body s reason v : json (MkResponse s reason (Some v)) = mret v.
Proof. reflexivity. Qed.

Lemma resolver_body_dict (res : pyval) (data_aux : list pyval) :
  is_dict res →
  (test ← py_and (py_get res "id") (py_and (py_get res "lat") (py_get res "long"));
   if py_truthy test then
     id ← py_get res "id";
     lat ← py_get res "lat";
     long ← py_get res "long";
     name ← py_get res "city_name";
     let dict_aux : gmap string pyval :=
       <["city_name" := name]> (<["long" := long]> (<["lat" := lat]> (<["id" := id]> ∅))) in
     mret (data_aux ++ [PDict dict_aux])
   else mret data_aux)
  = mret (data_aux ++ (if all_truthy res then [candidate_of res] else [])).
Proof.
  intros Hd. unfold py_and, all_truthy. rewrite !py_get_dict by done. rewrite !bind_mret.
  destruct (py_truthy (field res "id")) eqn:Hid; cbv beta iota; rewrite ?bind_mret, ?Hid;
    [|by rewrite app_nil_r].
  destruct (py_truthy (field res "lat")) eqn:Hlat; cbv beta iota; rewrite ?bind_mret, ?Hlat;
    [|by rewrite app_nil_r].
  destruct (py_truthy (field res "long")) eqn:Hlong; cbv beta iota; rewrite ?bind_mret;
    [done|by rewrite app_nil_r].
Qed.

Lemma bind_prefix {A B} (tr : list event) (a : A) (f : A → M B) :
  ((tr, Return a) ≫= f) = prefix tr (f a).
Proof. reflexivity. Qed.

Lemma prefix_run {A} tr tr' (o : outcome A) : prefix tr (tr', o) = (tr ++ tr', o).
Proof. reflexivity. Qed.

Lemma trace_prefix {A} tr (m : M A) : trace (prefix tr m) = tr ++ trace m.
Proof. reflexivity. Qed.

Lemma result_prefix {A} tr (m : M A) : result (prefix tr m) = result m.
Proof. reflexivity. Qed.

(** If a sequence returns, so did its first part. *)
Lemma result_bind_Return {A B} (m : M A) (f : A → M B) (b : B) :
  result (m ≫= f) = Return b → ∃ a, result m = Return a ∧ result (f a) = Return b.
Proof. rewrite result_bind. destruct (result m) as [a|e]; [eauto|done]. Qed.

(** ** Computations without events *)

Lemma silent_mret {A} (a : A) : silent (mret a : M A).
Proof. reflexivity. Qed.

Lemma silent_raise {A} (e : exn) : silent (raise e : M A).
Proof. reflexivity. Qed.

Lemma silent_bind {A B} (m : M A) (f : A → M B) :
  silent m → (∀ a, silent (f a)) → silent (m ≫= f).
Proof.
  unfold silent. intros Hm Hf. rewrite trace_bind, Hm.
  destruct (result m); [apply Hf | done].
Qed.

Lemma silent_for_each {A S} (body : A → S → M S) (xs : list A) (s : S) :
  (∀ x s, silent (body x s)) → silent (for_each body xs s).
Proof.
  intros Hbody. revert s. induction xs as [|x xs IH]; intros s; simpl.
  - apply silent_mret.
  - apply silent_bind; [apply Hbody | intros; apply IH].
Qed.

Lemma silent_py_get v key : silent (py_get v key).
Proof. by destruct v. Qed.

Lemma silent_py_setitem v key x : silent (py_setitem v key x).
Proof. by destruct v. Qed.

Lemma silent_py_iter v : silent (py_iter v).
Proof. by destruct v. Qed.

Lemma silent_py_and a b : silent a → silent b → silent (py_and a b).
Proof.
  intros Ha Hb. apply silent_bind; [done|]. intros x. destruct (py_truthy x); [done|].
  apply silent_mret.
Qed.

Lemma silent_raise_for_status r : silent (raise_for_status r).
Proof. unfold raise_for_status. by destruct (_ && _). Qed.

Lemma silent_json r : silent (json r).
Proof. unfold json. by destruct (resp_body r). Qed.

Lemma silent_future_result f : silent (future_result f).
Proof. reflexivity. Qed.

Lemma silent_localtime w t : silent (localtime w t).
Proof.
  unfold localtime. cbv zeta. destruct (ord2ymd _) as [[y m] d]. by destruct (_ && _).
Qed.

Lemma silent_utc_to_seconds y m d h mi s : silent (utc_to_seconds y m d h mi s).
Proof. unfold utc_to_seconds. by destruct (_ || _). Qed.

Lemma silent_local w u : silent (local w u).
Proof.
  apply silent_bind; [apply silent_localtime | intros; apply silent_utc_to_seconds].
Qed.

Lemma silent_fromtimestamp w v : silent (fromtimestamp w v).
Proof.
  unfold fromtimestamp. apply silent_bind.
  - by destruct v.
  - intros t. destruct (_ && _); [|done].
    apply silent_bind; [apply silent_localtime|]. intros broken. cbv zeta.
    apply silent_bind; [apply silent_utc_to_seconds|]. intros result_seconds.
    apply silent_bind; [apply silent_local|]. intros probe_seconds.
    apply silent_bind; [|intros; apply silent_mret].
    destruct (Z.ltb _ _); [|apply silent_mret].
    apply silent_bind; [apply silent_local | intros; apply silent_mret].
Qed.

Create HintDb silent.

#[local] Hint Resolve silent_mret silent_raise silent_py_get silent_py_setitem
  silent_py_iter silent_py_and silent_raise_for_status silent_json
  silent_future_result silent_fromtimestamp : silent.

Ltac silence :=
  repeat first
    [ progress eauto with silent
    | apply silent_bind; [|intros ?]
    | apply silent_for_each; intros ? ?
    | match goal with |- silent (if ?b then _ else _) => destruct b end
    | match goal with |- silent (let '(_, _) := ?p in _) => destruct p end ].

(** A GET is one event, then whatever the rest does. *)
Lemma requests_get_bind {B} upstream url (f : response → M B) :
  (requests_get upstream url ≫= f) =
  prefix [HttpGet url]
    (match upstream url with
     | NoResponse kind detail => raise (RequestException kind detail)
     | Response s r b => f (MkResponse s r b)
     end).
Proof.
  unfold requests_get. rewrite bind_assoc, emit_bind. f_equal.
  destruct (upstream url); [done | apply bind_mret].
Qed.

(** ** The resolver *)

(** Every run of the resolver performs exactly one request, the place
    search for the city name. *)
Lemma get_city_coordinates_trace w city :
  trace (WeatherService.get_city_coordinates w city) = [HttpGet (places_url city)].
Proof.
  unfold WeatherService.get_city_coordinates. rewrite requests_get_bind, trace_prefix.
  change (Request _ _) with (places_url city).
  match goal with |- _ ++ trace ?m = _ => assert (silent m) as -> end; [|done].
  destruct (places_api w (places_url city)); silence.
Qed.

Lemma truthy_present res key : py_truthy (field res key) = true → present res key = true.
Proof.
  destruct res; try done. simpl. destruct (d !! key) eqn:E; [|done].
  intros _. apply bool_decide_eq_true. eauto.
Qed.

Lemma all_truthy_present res : all_truthy res = true → all_present res = true.
Proof.
  unfold all_truthy, all_present. rewrite !andb_true_iff.
  intros [[? ?] ?]. by rewrite !truthy_present.
Qed.

Lemma candidate_of_is_dict res : is_dict (candidate_of res).
Proof. unfold candidate_of, candidate. by eexists. Qed.

(** A loop keeps what each round of its body keeps. *)
Lemma for_each_invariant {A S} (I : S → Prop) (body : A → S → M S) :
  (∀ x s s', I s → result (body x s) = Return s' → I s') →
  ∀ xs s s', I s → result (for_each body xs s) = Return s' → I s'.
Proof.
  intros Hbody xs. induction xs as [|x xs IH]; intros s s' Hs; simpl.
  - unfold result; simpl. by intros [= <-].
  - intros H. apply result_bind_Return in H as (s1 & H1 & H2). eauto.
Qed.

Lemma py_get_not_dict v key :
  ¬ is_dict v → ∃ e, py_get v key = raise e.
Proof. destruct v; try (by eexists). intros []. by eexists. Qed.

Lemma is_dict_dec v : is_dict v ∨ ¬ is_dict v.
Proof. destruct v; try (right; by intros [? [=]]). left; by eexists. Qed.

(** Whatever the upstream sends, what the resolver returns is the empty
    dict or a list of dicts. *)
Lemma get_city_coordinates_returns w city v :
  result (WeatherService.get_city_coordinates w city) = Return v →
  v = PDict ∅ ∨ ∃ l, v = PList l ∧ Forall is_dict l.
Proof.
  unfold WeatherService.get_city_coordinates. intros H.
  apply result_bind_Return in H as (response & _ & H).
  apply result_bind_Return in H as (_ & _ & H).
  apply result_bind_Return in H as (data & _ & H).
  destruct (py_truthy data).
  - apply result_bind_Return in H as (items & _ & H).
    apply result_bind_Return in H as (data_aux & Hloop & H).
    right. exists data_aux. split; [by injection H|].
    revert Hloop. apply for_each_invariant; [|constructor].
    intros res acc acc' Hacc Hbody.
    destruct (is_dict_dec res) as [Hd|Hd].
    + rewrite resolver_body_dict in Hbody by done. injection Hbody as <-.
      apply Forall_app. split; [done|].
      destruct (all_truthy res); repeat constructor. apply candidate_of_is_dict.
    + destruct (py_get_not_dict res "id" Hd) as [e He].
      unfold py_and in Hbody. rewrite He, !bind_raise in Hbody. done.
  - left. by injection H.
Qed.

(** What the resolver does with a JSON array of objects. *)
Lemma get_city_coordinates_run w city s reason rs :
  places_api w (places_url city) = Response s reason (Some (PList rs)) →
  status_ok s → Forall is_dict rs →
  WeatherService.get_city_coordinates w city =
    ([HttpGet (places_url city)],
     Return (if py_truthy (PList rs)
             then PList (candidate_of <$> List.filter all_truthy rs)
             else PDict ∅)).
Proof.
  intros Hup Hs Hrs. unfold WeatherService.get_city_coordinates.
  rewrite requests_get_bind. change (Request _ _) with (places_url city). rewrite Hup.
  rewrite raise_for_status_ok by done. rewrite bind_mret; cbv beta.
  rewrite json_body, bind_mret; cbv beta.
  destruct (py_truthy (PList rs)); [|done].
  unfold py_iter. rewrite bind_mret; cbv beta.
  rewrite (for_each_collect is_dict (λ res, if all_truthy res then [candidate_of res] else [])).
  - rewrite bind_mret. simpl. by rewrite concat_filter_map.
  - intros x acc Hx. by apply resolver_body_dict.
  - done.
Qed.

Lemma field_candidate_id a b c d : field (candidate a b c d) "id" = a.
Proof. reflexivity. Qed.

Lemma field_candidate_lat a b c d : field (candidate a b c d) "lat" = b.
Proof. reflexivity. Qed.

Lemma field_candidate_long a b c d : field (candidate a b c d) "long" = c.
Proof. reflexivity. Qed.

Lemma field_candidate_city_name a b c d : field (candidate a b c d) "city_name" = d.
Proof. reflexivity. Qed.

Lemma all_truthy_candidate_of res : all_truthy (candidate_of res) = all_truthy res.
Proof.
  unfold all_truthy, candidate_of.
  by rewrite field_candidate_id, field_candidate_lat, field_candidate_long.
Qed.

Lemma field_absent res key : present res key = false → field res key = PNone.
Proof.
  destruct res; try done. simpl. destruct (d !! key) eqn:E; [|done].
  intros H. apply bool_decide_eq_false in H. destruct H. eauto.
Qed.

Ltac sample_status := unfold status_ok; lia.
Ltac sample_dicts := repeat constructor; eexists; reflexivity.

(** C1 (amended): for an upstream response that is a non-empty JSON array
    of objects, the resolver returns, in the upstream's order, exactly the
    results whose [id], [lat] and [long] are all truthy, each projected to
    the four fields [id], [lat], [long], [city_name] (a missing
    [city_name] becomes null and does not filter); every candidate it
    returns is the projection of an input result that has all three fields
    present. *)
Theorem resolver_keeps_truthy_results w city s reason rs :
  places_api w (places_url city) = Response s reason (Some (PList rs)) →
  status_ok s → Forall is_dict rs → rs ≠ [] →
  result (WeatherService.get_city_coordinates w city)
    = Return (PList (candidate_of <$> List.filter all_truthy rs))
  ∧ ∀ c, c ∈ candidate_of <$> List.filter all_truthy rs →
         ∃ res, res ∈ rs ∧ all_present res = true ∧ c = candidate_of res.
Proof.
  intros Hup Hs Hrs Hne. split.
  - rewrite (get_city_coordinates_run w city s reason rs) by done.
    destruct rs; [done|reflexivity].
  - intros c Hc. apply list_elem_of_fmap in Hc as (res & -> & Hres).
    apply list_elem_of_In, filter_In in Hres as [Hin Ht].
    exists res. split; [by apply list_elem_of_In|].
    split; [by apply all_truthy_present|done].
Qed.

Lemma resolver_keeps_truthy_results_witness :
  result (WeatherService.get_city_coordinates world_two_places "Guadalajara")
    = Return (PList [candidate (PInt 7) (PStr "20.67") (PStr "-103.35") (PStr "Guadalajara");
                     candidate (PInt 8) (PStr "40.63") (PStr "-3.16") PNone]).
Proof.
  refine (proj1 (resolver_keeps_truthy_results world_two_places "Guadalajara"
                   200%Z "OK" _ eq_refl _ _ _)).
  - sample_status.
  - sample_dicts.
  - discriminate.
Defined.

(** C1, as stated, fails: a result whose [id] is the number 0 has all
    three fields present and is not returned. *)
Lemma resolver_drops_present_zero_id :
  ¬ (∀ w city s reason rs,
       places_api w (places_url city) = Response s reason (Some (PList rs)) →
       status_ok s → Forall is_dict rs → rs ≠ [] →
       result (WeatherService.get_city_coordinates w city)
         = Return (PList (candidate_of <$> List.filter all_present rs))).
Proof.
  intros H.
  specialize (H world_zero_id "Guadalajara" 200%Z "OK" _ eq_refl).
  assert (status_ok 200%Z) as Hs by sample_status.
  specialize (H Hs). vm_compute in H.
  discriminate H; [sample_dicts | discriminate].
Qed.

(** C2 (amended): when the place search answers with an empty array, the
    resolver returns the empty dict (not a list), after its one request. *)
Theorem resolver_no_match_returns_empty_dict w city s reason :
  places_api w (places_url city) = Response s reason (Some (PList [])) →
  status_ok s →
  WeatherService.get_city_coordinates w city
    = ([HttpGet (places_url city)], Return (PDict ∅)).
Proof.
  intros Hup Hs.
  by rewrite (get_city_coordinates_run w city s reason []).
Qed.

Lemma resolver_no_match_returns_empty_dict_witness :
  WeatherService.get_city_coordinates world_no_match "Nonexistentville123"
    = ([HttpGet (places_url "Nonexistentville123")], Return (PDict ∅)).
Proof.
  apply (resolver_no_match_returns_empty_dict world_no_match "Nonexistentville123" 200%Z "OK").
  - reflexivity.
  - sample_status.
Defined.

(** C2, as stated, fails: on an empty array the resolver's value is not
    the empty list. *)
Lemma resolver_no_match_is_not_a_list :
  ¬ (∀ w city s reason,
       places_api w (places_url city) = Response s reason (Some (PList [])) →
       status_ok s →
       result (WeatherService.get_city_coordinates w city) = Return (PList [])).
Proof.
  intros H.
  specialize (H world_no_match "Nonexistentville123" 200%Z "OK" eq_refl).
  assert (status_ok 200%Z) as Hs by sample_status.
  specialize (H Hs). vm_compute in H. discriminate H.
Qed.

(** C10 (amended): the filter tests truthiness, not presence.  A result
    whose [id], [lat] or [long] is falsy (absent, null, 0, empty) is not in
    the output; a result whose three fields are truthy is in the output
    whatever its [city_name], which is passed through unchanged: null when
    it is absent, and otherwise the upstream's value, falsy or not. *)
Theorem resolver_filter_is_truthiness w city s reason rs :
  places_api w (places_url city) = Response s reason (Some (PList rs)) →
  status_ok s → Forall is_dict rs → rs ≠ [] →
  ∃ out, result (WeatherService.get_city_coordinates w city) = Return (PList out)
    ∧ (∀ res, res ∈ rs → all_truthy res = false → candidate_of res ∉ out)
    ∧ (∀ res, res ∈ rs → all_truthy res = true →
         candidate_of res ∈ out
         ∧ field (candidate_of res) "city_name" = field res "city_name"
         ∧ (present res "city_name" = false →
              field (candidate_of res) "city_name" = PNone)).
Proof.
  intros Hup Hs Hrs Hne. eexists. split.
  - rewrite (get_city_coordinates_run w city s reason rs) by done.
    destruct rs; [done|reflexivity].
  - split.
    + intros res Hin Hf Hout. apply list_elem_of_fmap in Hout as (res' & Heq & Hres').
      apply list_elem_of_In, filter_In in Hres' as [_ Ht].
      rewrite <- (all_truthy_candidate_of res), Heq, all_truthy_candidate_of in Hf.
      congruence.
    + intros res Hin Ht. split; [|split].
      * apply list_elem_of_fmap. exists res. split; [done|].
        apply list_elem_of_In, filter_In. split; [by apply list_elem_of_In|done].
      * apply field_candidate_city_name.
      * intros Ha. unfold candidate_of. rewrite field_candidate_city_name.
        by apply field_absent.
Qed.

Lemma resolver_filter_is_truthiness_witness :
  ∃ out, result (WeatherService.get_city_coordinates world_blank_name "Guadalajara")
           = Return (PList out)
    ∧ (∀ res, res ∈ [place (PInt 7) (PStr "20.67") (PStr "-103.35") (PStr "")] →
         all_truthy res = false → candidate_of res ∉ out)
    ∧ (∀ res, res ∈ [place (PInt 7) (PStr "20.67") (PStr "-103.35") (PStr "")] →
         all_truthy res = true →
         candidate_of res ∈ out
         ∧ field (candidate_of res) "city_name" = field res "city_name"
         ∧ (present res "city_name" = false →
              field (candidate_of res) "city_name" = PNone)).
Proof.
  apply (resolver_filter_is_truthiness world_blank_name "Guadalajara" 200%Z "OK").
  - reflexivity.
  - sample_status.
  - sample_dicts.
  - discriminate.
Defined.

(** C10, as stated, fails: a result whose [city_name] is the empty string
    is kept with the empty string, not with null. *)
Lemma resolver_keeps_blank_city_name :
  ¬ (∀ w city s reason rs res,
       places_api w (places_url city) = Response s reason (Some (PList rs)) →
       status_ok s → Forall is_dict rs → res ∈ rs → all_truthy res = true →
       py_truthy (field res "city_name") = false →
       ∃ out, result (WeatherService.get_city_coordinates w city) = Return (PList out)
              ∧ candidate (field res "id") (field res "lat") (field res "long") PNone ∈ out).
Proof.
  intros H.
  destruct (H world_blank_name "Guadalajara" 200%Z "OK" _
              (place (PInt 7) (PStr "20.67") (PStr "-103.35") (PStr "")) eq_refl)
    as (out & Hout & Hin).
  - sample_status.
  - sample_dicts.
  - apply list_elem_of_singleton. reflexivity.
  - reflexivity.
  - reflexivity.
  - vm_compute in Hout. injection Hout as <-.
    apply list_elem_of_singleton in Hin.
    apply (f_equal (λ v, field v "city_name")) in Hin.
    vm_compute in Hin. discriminate Hin.
Qed.

(** ** The calendar *)

Section Calendar.
Local Open Scope Z_scope.

Lemma is_leap_spec y :
  is_leap y = true ↔ (y mod 4 = 0 ∧ (y mod 100 ≠ 0 ∨ y mod 400 = 0)).
Proof.
  unfold is_leap. rewrite andb_true_iff, orb_true_iff, negb_true_iff.
  rewrite !Z.eqb_eq, Z.eqb_neq. tauto.
Qed.

(** The month and the day of the [doy]-th day (from 0) of the year [y]. *)
Lemma month_of_day_of_year (y doy : Z) :
  0 ≤ doy < 365 + (if is_leap y then 1 else 0) →
  let m0 := (doy + 50) / 32 in
  let md := if Z.ltb doy (days_before_month y m0)
            then (m0 - 1, doy - (days_before_month y m0 - days_in_month y (m0 - 1)) + 1)
            else (m0, doy - days_before_month y m0 + 1) in
  days_before_month y md.1 + md.2 = doy + 1
  ∧ 1 ≤ md.1 ≤ 12 ∧ 1 ≤ md.2 ≤ days_in_month y md.1.
Proof.
  unfold days_before_month, days_in_month. generalize (is_leap y).
  intros leap Hdoy. set (m0 := (doy + 50) / 32).
  assert (32 * m0 ≤ doy + 50 < 32 * m0 + 32) as Hq
    by (subst m0; Z.div_mod_to_equations; lia).
  assert (1 ≤ m0 ≤ 12) as Hm0 by (destruct leap; lia).
  clearbody m0.
  assert (m0 = 1 ∨ m0 = 2 ∨ m0 = 3 ∨ m0 = 4 ∨ m0 = 5 ∨ m0 = 6 ∨ m0 = 7
          ∨ m0 = 8 ∨ m0 = 9 ∨ m0 = 10 ∨ m0 = 11 ∨ m0 = 12) as Hcase by lia.
  destruct leap;
    repeat (destruct Hcase as [-> | Hcase]); try subst m0; simpl;
    match goal with |- context [Z.ltb ?a ?b] => destruct (Z.ltb_spec a b) end; simpl; lia.
Qed.

Lemma days_before_year_cycles q a b c :
  0 ≤ a ≤ 3 → 0 ≤ b ≤ 24 → 0 ≤ c ≤ 3 →
  days_before_year (400 * q + 100 * a + 4 * b + c + 1)
  = 146097 * q + 36524 * a + 1461 * b + 365 * c.
Proof.
  intros Ha Hb Hc. unfold days_before_year. cbv zeta.
  Z.div_mod_to_equations. lia.
Qed.

Lemma is_leap_fourth q a b :
  0 ≤ a ≤ 3 → 0 ≤ b ≤ 23 → is_leap (400 * q + 100 * a + 4 * b + 4) = true.
Proof.
  intros Ha Hb. apply is_leap_spec. Z.div_mod_to_equations. lia.
Qed.

Lemma is_leap_four_hundredth q : is_leap (400 * q + 400) = true.
Proof. apply is_leap_spec. Z.div_mod_to_equations. lia. Qed.

Lemma days_before_december y :
  days_before_month y 12 = 334 + (if is_leap y then 1 else 0).
Proof. reflexivity. Qed.

Lemma days_in_december y : days_in_month y 12 = 31.
Proof. reflexivity. Qed.

(** The date of an ordinal is a date of the calendar, and it is the date
    whose ordinal it is. *)
Lemma ord2ymd_correct n :
  ymd2ord (ord2ymd n).1.1 (ord2ymd n).1.2 (ord2ymd n).2 = n
  ∧ 1 ≤ (ord2ymd n).1.2 ≤ 12
  ∧ 1 ≤ (ord2ymd n).2 ≤ days_in_month (ord2ymd n).1.1 (ord2ymd n).1.2.
Proof.
  unfold ord2ymd. cbv zeta.
  set (q := (n - 1) / 146097). set (r400 := (n - 1) mod 146097).
  set (a := r400 / 36524). set (r100 := r400 mod 36524).
  set (b := r100 / 1461). set (r4 := r100 mod 1461).
  set (c := r4 / 365). set (r1 := r4 mod 365).
  assert (n - 1 = 146097 * q + r400 ∧ 0 ≤ r400 < 146097) as [E400 B400]
    by (subst q r400; Z.div_mod_to_equations; lia).
  assert (r400 = 36524 * a + r100 ∧ 0 ≤ r100 < 36524) as [E100 B100]
    by (subst a r100; Z.div_mod_to_equations; lia).
  assert (r100 = 1461 * b + r4 ∧ 0 ≤ r4 < 1461) as [E4 B4]
    by (subst b r4; Z.div_mod_to_equations; lia).
  assert (r4 = 365 * c + r1 ∧ 0 ≤ r1 < 365) as [E1 B1]
    by (subst c r1; Z.div_mod_to_equations; lia).
  clearbody q r400 a r100 b r4 c r1.
  assert (0 ≤ a ≤ 4 ∧ 0 ≤ b ≤ 24 ∧ 0 ≤ c ≤ 4) as (Ha & Hb & Hc) by lia.
  destruct (Z.eqb_spec c 4) as [Hc4|Hc4]; [|destruct (Z.eqb_spec a 4) as [Ha4|Ha4]];
    simpl orb; cbv iota; simpl fst; simpl snd.
  - (* the last day of a leap year that a 4-year cycle ends with *)
    replace (q * 400 + 1 + a * 100 + b * 4 + c - 1) with (400 * q + 100 * a + 4 * b + 4) by lia.
    unfold ymd2ord. rewrite days_before_december, days_in_december.
    rewrite is_leap_fourth by lia.
    replace (400 * q + 100 * a + 4 * b + 4) with (400 * q + 100 * a + 4 * b + 3 + 1) by lia.
    rewrite days_before_year_cycles by lia. lia.
  - (* the last day of a 400-year cycle *)
    replace (q * 400 + 1 + a * 100 + b * 4 + c - 1) with (400 * q + 400) by lia.
    unfold ymd2ord. rewrite days_before_december, days_in_december.
    rewrite is_leap_four_hundredth.
    replace (400 * q + 400) with (400 * q + 100 * 3 + 4 * 24 + 3 + 1) by lia.
    rewrite days_before_year_cycles by lia. lia.
  - replace (q * 400 + 1 + a * 100 + b * 4 + c) with (400 * q + 100 * a + 4 * b + c + 1) by lia.
    set (y := 400 * q + 100 * a + 4 * b + c + 1).
    assert (days_before_year y = 146097 * q + 36524 * a + 1461 * b + 365 * c) as Hy
      by (apply days_before_year_cycles; lia).
    pose proof (month_of_day_of_year y r1) as Hm. cbv zeta in Hm.
    destruct Hm as (Hm1 & Hm2 & Hm3); [destruct (is_leap y); lia|].
    destruct (Z.ltb r1 (days_before_month y ((r1 + 50) / 32))); simpl fst in *; simpl snd in *;
      unfold ymd2ord; rewrite Hy; repeat split; lia.
Qed.

Example epoch_ordinal : ymd2ord 1970 1 1 = EPOCH_ORDINAL.
Proof. reflexivity. Qed.

Lemma digit_value_digit n : digit_value (digit n) = n mod 10.
Proof.
  unfold digit_value, digit.
  assert (0 ≤ n mod 10 < 10) as H by (apply Z.mod_pos_bound; lia).
  rewrite Ascii.nat_ascii_embedding by lia. lia.
Qed.

(** The two-digit and the four-digit writing of a number read back. *)
Lemma number_of_dec2 n : 0 ≤ n < 100 → number_of (dec2 n) = n.
Proof.
  intros Hn. unfold number_of, dec2. cbn [number_from].
  rewrite !digit_value_digit. Z.div_mod_to_equations. lia.
Qed.

Lemma number_of_dec4 n : 0 ≤ n < 10000 → number_of (dec4 n) = n.
Proof.
  intros Hn. unfold number_of, dec4, dec2. cbn [number_from].
  rewrite !digit_value_digit. Z.div_mod_to_equations. lia.
Qed.

Lemma date_string_length ymd : String.length (date_string ymd) = 10%nat.
Proof. by destruct ymd as [[y m] d]. Qed.

(** A year has 365 days, or 366. *)
Lemma days_before_year_succ y :
  days_before_year (y + 1)
  = days_before_year y + 365 + (if is_leap y then 1 else 0).
Proof.
  unfold days_before_year. cbv zeta. replace (y + 1 - 1) with y by lia.
  destruct (is_leap y) eqn:E.
  - apply is_leap_spec in E. Z.div_mod_to_equations. lia.
  - assert (¬ (y mod 4 = 0 ∧ (y mod 100 ≠ 0 ∨ y mod 400 = 0))) as E'
      by (rewrite <- is_leap_spec; congruence).
    Z.div_mod_to_equations. lia.
Qed.

Lemma days_before_year_mono a b :
  a ≤ b → days_before_year a ≤ days_before_year b.
Proof.
  intros Hab. unfold days_before_year. cbv zeta. Z.div_mod_to_equations. lia.
Qed.

(** The number of a day in its year. *)
Lemma day_of_year_bound y m d :
  1 ≤ m ≤ 12 → 1 ≤ d ≤ days_in_month y m →
  1 ≤ days_before_month y m + d ≤ 365 + (if is_leap y then 1 else 0).
Proof.
  unfold days_before_month, days_in_month. generalize (is_leap y). intros leap Hm.
  assert (m = 1 ∨ m = 2 ∨ m = 3 ∨ m = 4 ∨ m = 5 ∨ m = 6 ∨ m = 7
          ∨ m = 8 ∨ m = 9 ∨ m = 10 ∨ m = 11 ∨ m = 12) as Hcase by lia.
  destruct leap;
    repeat (destruct Hcase as [-> | Hcase]); try subst m; simpl; lia.
Qed.

(** The year of an ordinal is the year in which the day falls. *)
Lemma ord2ymd_year n :
  days_before_year (ord2ymd n).1.1 < n ≤ days_before_year ((ord2ymd n).1.1 + 1).
Proof.
  pose proof (ord2ymd_correct n) as (Hord & Hm & Hd).
  destruct (ord2ymd n) as [[y m] d]. cbn [fst snd] in *.
  pose proof (day_of_year_bound y m d Hm Hd) as Hdoy.
  rewrite days_before_year_succ. unfold ymd2ord in Hord. lia.
Qed.

Lemma ord2ymd_year_bounds n lo hi :
  days_before_year lo < n ≤ days_before_year (hi + 1) →
  lo ≤ (ord2ymd n).1.1 ≤ hi.
Proof.
  intros Hn. pose proof (ord2ymd_year n) as Hy.
  set (y := (ord2ymd n).1.1) in *. clearbody y. split.
  - destruct (Z.le_gt_cases lo y) as [|Hlt]; [done|].
    pose proof (days_before_year_mono (y + 1) lo). lia.
  - destruct (Z.le_gt_cases y hi) as [|Hlt]; [done|].
    pose proof (days_before_year_mono (hi + 1) y). lia.
Qed.

Lemma wrap_int_small z : INT_MIN ≤ z ≤ INT_MAX → wrap_int z = z.
Proof.
  unfold wrap_int, INT_MIN, INT_MAX.
  change (2 ^ 31) with 2147483648. change (2 ^ 32) with 4294967296.
  intros Hz. Z.div_mod_to_equations. lia.
Qed.

(** The broken-down local time of an instant whose local year the
    [datetime] type has. *)
Lemma localtime_run w t y m d :
  local_date w t = (y, m, d) → 1 ≤ y ≤ 9999 →
  localtime w t
  = mret (MkTm (y - 1900) (m - 1) d
               ((t + utcoffset w t) mod 86400 / 3600)
               ((t + utcoffset w t) mod 86400 mod 3600 / 60)
               ((t + utcoffset w t) mod 86400 mod 60)).
Proof.
  unfold local_date, localtime. intros E Hy. cbv zeta. rewrite E.
  unfold INT_MIN, INT_MAX. change (2 ^ 31) with 2147483648.
  rewrite !(proj2 (Z.leb_le _ _)) by lia. reflexivity.
Qed.

(** Its seconds from 0001-01-01 are the local seconds from 1970-01-01,
    shifted. *)
Lemma utc_to_seconds_run w t y m d :
  local_date w t = (y, m, d) → 1 ≤ y ≤ 9999 →
  utc_to_seconds y m d
    ((t + utcoffset w t) mod 86400 / 3600)
    ((t + utcoffset w t) mod 86400 mod 3600 / 60)
    ((t + utcoffset w t) mod 86400 mod 60)
  = mret (t + utcoffset w t + epoch).
Proof.
  intros E Hy. unfold utc_to_seconds, MINYEAR, MAXYEAR.
  destruct (Z.ltb_spec y 1), (Z.ltb_spec 9999 y); try lia.
  simpl orb. cbv iota zeta.
  pose proof (ord2ymd_correct ((t + utcoffset w t) / 86400 + EPOCH_ORDINAL)) as (Hord & _).
  unfold local_date in E. rewrite E in Hord. cbn [fst snd] in Hord. rewrite Hord.
  match goal with |- mret ?a = mret ?b => replace a with b; [reflexivity|] end.
  unfold epoch, EPOCH_ORDINAL. Z.div_mod_to_equations. lia.
Qed.

Lemma local_run w u :
  1 ≤ (local_date w (u - epoch)).1.1 ≤ 9999 →
  local w u = mret (u + utcoffset w (u - epoch)).
Proof.
  intros Hy. unfold local.
  destruct (local_date w (u - epoch)) as [[y m] d] eqn:E. cbn [fst snd] in Hy.
  rewrite (localtime_run w _ y m d E Hy), bind_mret. cbv beta.
  cbn [tm_year tm_mon tm_mday tm_hour tm_min tm_sec].
  replace (y - 1900 + 1900) with y by lia. replace (m - 1 + 1) with m by lia.
  rewrite wrap_int_small
    by (unfold INT_MIN, INT_MAX; change (2 ^ 31) with 2147483648; lia).
  rewrite (utc_to_seconds_run w _ y m d E Hy).
  match goal with |- mret ?a = mret ?b => replace a with b; [reflexivity|lia] end.
Qed.

(** The instants that [fromtimestamp] looks at besides its argument are
    at most two days before it, and their local dates, at most a few days
    away, are in the years of the [datetime] type. *)
Lemma probe_year w t t' :
  clock_ok w → timestamp_ok w t → t - 172800 ≤ t' ≤ t →
  1 ≤ (local_date w t').1.1 ≤ 9999.
Proof.
  intros Hclock Hok Ht'. unfold timestamp_ok, local_date in *.
  apply ord2ymd_year_bounds.
  pose proof (ord2ymd_year ((t + utcoffset w t) / 86400 + EPOCH_ORDINAL)) as Hy.
  set (y := (ord2ymd ((t + utcoffset w t) / 86400 + EPOCH_ORDINAL)).1.1) in *.
  clearbody y.
  pose proof (days_before_year_mono 1000 y) as Hlo.
  pose proof (days_before_year_mono (y + 1) 9999) as Hhi.
  assert (days_before_year 1000 = 364877) as E1 by reflexivity.
  assert (days_before_year 9999 = 3651694) as E2 by reflexivity.
  assert (days_before_year 1 = 0) as E3 by reflexivity.
  assert (days_before_year (9999 + 1) = 3652059) as E4 by reflexivity.
  rewrite E1 in Hlo. rewrite E2 in Hhi. rewrite E3, E4.
  pose proof (Hclock t) as Ho. pose proof (Hclock t') as Ho'.
  unfold EPOCH_ORDINAL in *. Z.div_mod_to_equations. lia.
Qed.

Lemma timestamp_ok_range w t :
  clock_ok w → timestamp_ok w t → - 2 ^ 63 ≤ t < 2 ^ 63.
Proof.
  intros Hclock Hok. unfold timestamp_ok, local_date in *.
  pose proof (ord2ymd_year ((t + utcoffset w t) / 86400 + EPOCH_ORDINAL)) as Hy.
  set (y := (ord2ymd ((t + utcoffset w t) / 86400 + EPOCH_ORDINAL)).1.1) in *.
  clearbody y.
  pose proof (days_before_year_mono 1000 y) as Hlo.
  pose proof (days_before_year_mono (y + 1) 9999) as Hhi.
  assert (days_before_year 1000 = 364877) as E1 by reflexivity.
  assert (days_before_year 9999 = 3651694) as E2 by reflexivity.
  rewrite E1 in Hlo. rewrite E2 in Hhi.
  pose proof (Hclock t) as Ho.
  change (2 ^ 63) with 9223372036854775808.
  unfold EPOCH_ORDINAL in *. Z.div_mod_to_equations. lia.
Qed.

Lemma numeral_dec4 y : 1000 ≤ y → numeral y = dec4 y.
Proof.
  intros Hy. unfold numeral.
  destruct (Z.ltb_spec y 10), (Z.ltb_spec y 100), (Z.ltb_spec y 1000); try lia.
  reflexivity.
Qed.

End Calendar.

(** ** The fetcher *)

(** On a timestamp whose local date is in a year of four digits, the last
    one left out, [fromtimestamp] returns, and the date it returns is the
    local date of the instant. *)
Lemma fromtimestamp_int w t :
  clock_ok w → timestamp_ok w t →
  ∃ when, fromtimestamp w (PInt t) = mret when
          ∧ (year when, month when, day when) = local_date w t.
Proof.
  intros Hclock Hok.
  assert (1 ≤ (local_date w t).1.1 ≤ 9999)%Z as Hy
    by (unfold timestamp_ok in Hok; lia).
  pose proof (timestamp_ok_range w t Hclock Hok) as Hrange.
  unfold fromtimestamp. rewrite bind_mret. cbv beta.
  destruct (Z.leb_spec (- 2 ^ 63) t), (Z.ltb_spec t (2 ^ 63)); try lia.
  simpl andb. cbv iota.
  destruct (local_date w t) as [[y m] d] eqn:E. cbn [fst snd] in Hy.
  rewrite (localtime_run w t y m d E Hy), bind_mret. cbv beta zeta.
  cbn [tm_year tm_mon tm_mday tm_hour tm_min tm_sec].
  replace (y - 1900 + 1900)%Z with y by lia. replace (m - 1 + 1)%Z with m by lia.
  rewrite wrap_int_small
    by (unfold INT_MIN, INT_MAX; change (2 ^ 31)%Z with 2147483648%Z; lia).
  rewrite Z.min_r by (Z.div_mod_to_equations; lia).
  rewrite (utc_to_seconds_run w t y m d E Hy), bind_mret. cbv beta.
  assert (epoch + t - max_fold_seconds - epoch = t - 86400)%Z as Eprobe
    by (unfold max_fold_seconds; lia).
  rewrite (local_run w (epoch + t - max_fold_seconds))
    by (rewrite Eprobe; apply (probe_year w t); [done..|lia]).
  rewrite bind_mret. cbv beta zeta. rewrite Eprobe.
  pose proof (Hclock t) as Ho. pose proof (Hclock (t - 86400)%Z) as Ho'.
  match goal with |- context [Z.ltb ?a 0] => destruct (Z.ltb_spec a 0) as [Hneg|Hpos] end.
  - rewrite local_run.
    + rewrite !bind_mret. eexists. split; [reflexivity|done].
    + apply (probe_year w t); [done..|]. unfold max_fold_seconds in *. lia.
  - rewrite !bind_mret. eexists. split; [reflexivity|done].
Qed.

Lemma strftime_date_string when :
  (1000 ≤ year when)%Z →
  strftime_Ymd when = date_string (year when, month when, day when).
Proof.
  intros Hy. unfold strftime_Ymd, date_string. by rewrite numeral_dec4.
Qed.

(** One round of the fetcher's loop on a well-formed entry. *)
Lemma fetcher_body_entry w (day : pyval) (forecast_data : list pyval) :
  clock_ok w → daily_entry w day →
  (dt ← py_get day "dt";
   when ← fromtimestamp w dt;
   let d_aux : gmap string pyval := <["datetime" := PStr (strftime_Ymd when)]> ∅ in
   temp ← py_get day "temp";
   temp_min ← py_get temp "min";
   let d_aux := <["temp_min" := temp_min]> d_aux in
   temp ← py_get day "temp";
   temp_max ← py_get temp "max";
   let d_aux := <["temp_max" := temp_max]> d_aux in
   mret (forecast_data ++ [PDict d_aux]))
  = mret (forecast_data ++ [forecast_of w day]).
Proof.
  intros Hclock (t & Hday & Hdt & Hok & Htemp).
  rewrite (py_get_dict day "dt"), bind_mret by done. cbv beta. rewrite Hdt.
  destruct (fromtimestamp_int w t Hclock Hok) as (when & -> & Hwhen).
  rewrite bind_mret. cbv beta zeta.
  rewrite !(py_get_dict day "temp"), !bind_mret by done. cbv beta.
  rewrite (py_get_dict _ "min"), bind_mret by done. cbv beta.
  rewrite !bind_mret. cbv beta.
  rewrite (py_get_dict _ "max"), bind_mret by done.
  unfold forecast_of. rewrite Hdt, strftime_date_string, Hwhen; [done|].
  unfold timestamp_ok in Hok. rewrite <- Hwhen in Hok. cbn [fst snd] in Hok. lia.
Qed.

Lemma falsy_dict_empty (data : gmap string pyval) :
  py_truthy (PDict data) = false → data = ∅.
Proof.
  simpl. intros H. apply negb_false_iff, Nat.eqb_eq in H. by apply map_size_empty_inv.
Qed.

(** The test [data and data.get('daily')] on a JSON object. *)
Lemma daily_test (data : gmap string pyval) :
  py_and (mret (PDict data)) (py_get (PDict data) "daily")
  = mret (default PNone (data !! "daily")) ∨
  (data = ∅ ∧ py_and (mret (PDict data)) (py_get (PDict data) "daily") = mret (PDict ∅)).
Proof.
  unfold py_and. rewrite bind_mret. destruct (py_truthy (PDict data)) eqn:E.
  - by left.
  - right. apply falsy_dict_empty in E as ->. done.
Qed.

Lemma concat_singletons {A B} (f : A → B) (xs : list A) :
  concat ((λ x, [f x]) <$> xs) = f <$> xs.
Proof.
  induction xs as [|x xs IH]; [done|]. by rewrite !fmap_cons, concat_cons, IH.
Qed.

(** What the fetcher does with a JSON object. *)
Lemma get_city_weather_run w upstream lat long s reason data :
  clock_ok w →
  upstream (onecall_url lat long) = Response s reason (Some (PDict data)) →
  status_ok s →
  (∀ days, data !! "daily" = Some (PList days) → Forall (daily_entry w) days →
     WeatherService.get_city_weather w upstream lat long
       = ([HttpGet (onecall_url lat long)], Return (PList (forecast_of w <$> days))))
  ∧ (data !! "daily" = None →
     WeatherService.get_city_weather w upstream lat long
       = ([HttpGet (onecall_url lat long)], Return (PList []))).
Proof.
  intros Hclock Hup Hs. unfold WeatherService.get_city_weather.
  rewrite requests_get_bind. change (Request _ _) with (onecall_url lat long).
  rewrite Hup. rewrite raise_for_status_ok by done. rewrite bind_mret; cbv beta.
  rewrite json_body, bind_mret; cbv beta.
  destruct (daily_test data) as [-> | [-> ->]]; rewrite bind_mret; cbv beta.
  - split.
    + intros days Hdaily Hdays. rewrite Hdaily. simpl default.
      destruct days as [|d0 days]; [done|].
      simpl py_truthy. cbv iota.
      rewrite (py_get_dict (PDict data)), bind_mret by (by eexists). cbv beta.
      simpl field. rewrite Hdaily. simpl default.
      unfold py_iter. rewrite bind_mret; cbv beta.
      rewrite (for_each_collect (daily_entry w) (λ day, [forecast_of w day])).
      * rewrite bind_mret. simpl app. by rewrite concat_singletons.
      * intros x acc Hx. by apply fetcher_body_entry.
      * done.
    + intros ->. done.
  - split; [|done]. intros days Hdaily. by rewrite lookup_empty in Hdaily.
Qed.



Lemma sample_clock_ok places weather : clock_ok (sample_world places weather).
Proof. intros t. simpl. lia. Qed.






(** Every run of the fetcher performs exactly one request, the forecast
    for its coordinates: one call of the fetcher is one such event. *)
Lemma get_city_weather_trace w upstream lat long :
  trace (WeatherService.get_city_weather w upstream lat long)
    = [HttpGet (onecall_url lat long)].
Proof.
  unfold WeatherService.get_city_weather. rewrite requests_get_bind, trace_prefix.
  change (Request _ _) with (onecall_url lat long).
  match goal with |- _ ++ trace ?m = _ => assert (silent m) as -> end; [|done].
  destruct (upstream (onecall_url lat long)); silence.
Qed.

(** Whatever the upstream sends, what the fetcher returns is a list. *)
Lemma get_city_weather_returns_list w upstream lat long v :
  result (WeatherService.get_city_weather w upstream lat long) = Return v → is_list v.
Proof.
  unfold WeatherService.get_city_weather. intros H.
  apply result_bind_Return in H as (response & _ & H).
  apply result_bind_Return in H as (_ & _ & H).
  apply result_bind_Return in H as (data & _ & H).
  apply result_bind_Return in H as (test & _ & H).
  destruct (py_truthy test).
  - apply result_bind_Return in H as (daily & _ & H).
    apply result_bind_Return in H as (days & _ & H).
    apply result_bind_Return in H as (forecast_data & _ & H).
    injection H as <-. by eexists.
  - injection H as <-. by eexists.
Qed.

(** ** The aggregator *)

(** The order of completion is an order of the pending tasks: each of
    them once. *)
Lemma as_completed_from_Permutation {A} (fuel : nat) (choices : list nat) (pending : list A) :
  length pending = fuel → as_completed_from fuel choices pending ≡ₚ pending.
Proof.
  revert choices pending. induction fuel as [|fuel IH]; intros choices pending Hlen; simpl.
  - by destruct pending.
  - assert (hd 0%nat choices mod length pending < length pending)%nat as Hk
      by (apply Nat.mod_upper_bound; lia).
    destruct (lookup_lt_is_Some_2 pending _ Hk) as [x Hx]. rewrite Hx.
    symmetry. etransitivity; [apply (delete_Permutation _ _ _ Hx)|].
    constructor. symmetry. apply IH. rewrite length_delete by eauto. lia.
Qed.

Lemma as_completed_Permutation {A} (choices : list nat) (pending : list A) :
  as_completed choices pending ≡ₚ pending.
Proof. by apply as_completed_from_Permutation. Qed.

Lemma submit_bind {B} (task : M pyval) (f : future → M B) :
  (submit task ≫= f) = prefix (trace task) (f (MkFuture (result task))).
Proof. reflexivity. Qed.

(** The first loop: one task per candidate, all of them submitted. *)
Lemma submit_loop w (cs : list pyval) (submitted : list (future * pyval)) :
  Forall is_dict cs →
  for_each (λ city_res submitted,
      lat ← py_get city_res "lat";
      long ← py_get city_res "long";
      fut ← submit (WeatherService.get_city_weather w
                      (weather_api w (length submitted)) lat long);
      mret (submitted ++ [(fut, city_res)])) cs submitted
  = (fetch_events w (length submitted) cs,
     Return (submitted ++ futures_from w (length submitted) cs)).
Proof.
  intros Hcs. revert submitted.
  induction Hcs as [|c cs Hc Hcs IH]; intros submitted;
    cbn [for_each fetch_events futures_from].
  - by rewrite app_nil_r.
  - rewrite !py_get_dict, !bind_mret by done. cbv beta.
    rewrite submit_bind, prefix_bind, bind_mret, IH.
    rewrite prefix_run, length_app. simpl length.
    replace (length submitted + 1)%nat with (S (length submitted)) by lia.
    by rewrite <- app_assoc.
Qed.

Lemma fetch_events_are_fetches w k cs :
  fetch_events w k cs
  = (λ c, HttpGet (onecall_url (field c "lat") (field c "long"))) <$> cs.
Proof.
  revert k. induction cs as [|c cs IH]; intros k; simpl; [done|].
  unfold fetch_task at 1. change (fst ?m) with (trace m).
  by rewrite get_city_weather_trace, IH.
Qed.

Lemma futures_from_length w k cs : length (futures_from w k cs) = length cs.
Proof. revert k. induction cs as [|c cs IH]; intros k; simpl; [done|]. by rewrite IH. Qed.

Lemma futures_from_lookup w k cs p :
  p ∈ futures_from w k cs →
  ∃ i c, cs !! i = Some c ∧ p = (MkFuture (result (fetch_task w (k + i) c)), c).
Proof.
  revert k. induction cs as [|c cs IH]; intros k; simpl.
  - by intros ?%elem_of_nil.
  - intros [->|Hin]%elem_of_cons.
    + exists 0%nat, c. by rewrite Nat.add_0_r.
    + destruct (IH _ Hin) as (i & c' & Hi & ->).
      exists (S i), c'. split; [done|]. by rewrite Nat.add_succ_r.
Qed.

Lemma futures_from_elem w k cs i c :
  cs !! i = Some c →
  (MkFuture (result (fetch_task w (k + i) c)), c) ∈ futures_from w k cs.
Proof.
  revert k i. induction cs as [|c0 cs IH]; intros k i; [done|].
  destruct i as [|i]; simpl.
  - intros [= ->]. rewrite Nat.add_0_r. apply elem_of_cons. by left.
  - intros Hi. apply elem_of_cons. right.
    rewrite Nat.add_succ_r. apply (IH (S k) i Hi).
Qed.

(** One round of the second loop: the future's value is attached to its
    candidate, or the future's exception is raised. *)
Lemma collect_body (fut : future) (c : pyval) (results : list pyval) :
  is_dict c →
  (city_weather ← future_result fut;
   city_res ← py_setitem c "weather" city_weather;
   mret (results ++ [city_res]))
  = match fut_outcome fut with
    | Return _ => mret (results ++ [enriched (fut, c)])
    | Raise e => raise e
    end.
Proof.
  destruct fut as [o]. intros [d ->]. unfold enriched, future_result. simpl.
  by destruct o as [v|e].
Qed.

Lemma collect_loop_ok (order : list (future * pyval)) (results : list pyval) :
  Forall (λ p, is_dict p.2 ∧ ∃ v, fut_outcome p.1 = Return v) order →
  for_each (λ '(fut, city_res) results,
      city_weather ← future_result fut;
      city_res ← py_setitem city_res "weather" city_weather;
      mret (results ++ [city_res])) order results
  = mret (results ++ (enriched <$> order)).
Proof.
  intros H.
  rewrite (for_each_collect (λ p, is_dict p.2 ∧ ∃ v, fut_outcome p.1 = Return v)
             (λ p, [enriched p])); [by rewrite concat_singletons| |done].
  intros [fut c] acc [Hd [v Hv]]. cbv beta iota. rewrite collect_body by done.
  simpl in Hv. by rewrite Hv.
Qed.

Lemma collect_loop_raises (order : list (future * pyval)) (results : list pyval) :
  Forall (λ p, is_dict p.2) order →
  Exists (λ p, ∃ e, fut_outcome p.1 = Raise e) order →
  ∃ p e, p ∈ order ∧ fut_outcome p.1 = Raise e ∧
    for_each (λ '(fut, city_res) results,
        city_weather ← future_result fut;
        city_res ← py_setitem city_res "weather" city_weather;
        mret (results ++ [city_res])) order results
    = raise e.
Proof.
  intros Hd. revert results.
  induction Hd as [|p order Hp Hd IH]; intros results Hex; [by inversion Hex|].
  cbn [for_each]. destruct p as [fut c]. cbv beta iota. rewrite collect_body by done.
  set (p := (fut, c)) in *.
  destruct (fut_outcome fut) as [v|e] eqn:Ho.
  - rewrite bind_mret.
    assert (Exists (λ p, ∃ e, fut_outcome p.1 = Raise e) order) as Hex'.
    { inversion Hex as [? ? [e He]|]; subst; [|done].
      subst p. simpl in He. congruence. }
    destruct (IH (results ++ [enriched p]) Hex') as (q & e & Hq & He & Hrun).
    exists q, e. split; [by apply elem_of_cons; right|done].
  - exists p, e. rewrite bind_raise. split; [by apply elem_of_cons; left|done].
Qed.

(** The aggregator when the resolver yields candidates: the resolver's
    request, the requests of all the tasks, then the second loop over the
    futures in their order of completion. *)
Lemma aggregator_run w city cands :
  result (WeatherService.get_city_coordinates w city) = Return (PList cands) →
  cands ≠ [] →
  Forall is_dict cands ∧
  WeatherService.get_city_and_weather_info w city
  = prefix (HttpGet (places_url city) :: fetch_events w 0 cands)
      (results ← for_each (λ '(fut, city_res) results,
           city_weather ← future_result fut;
           city_res ← py_setitem city_res "weather" city_weather;
           mret (results ++ [city_res]))
         (as_completed (completion w) (futures_from w 0 cands)) [];
       mret (PList results)).
Proof.
  intros Hres Hne.
  assert (Forall is_dict cands) as Hd.
  { destruct (get_city_coordinates_returns w city _ Hres) as [[=]|(l & [= <-] & Hl)]. done. }
  split; [done|].
  unfold WeatherService.get_city_and_weather_info.
  rewrite (run_eta (WeatherService.get_city_coordinates w city)).
  rewrite Hres, get_city_coordinates_trace.
  rewrite bind_prefix.
  assert (py_truthy (PList cands) = true) as -> by (by destruct cands).
  simpl negb. cbv iota. unfold py_iter. rewrite bind_mret.
  rewrite (submit_loop w cands [] Hd). simpl length. simpl app.
  rewrite bind_prefix.
  unfold prefix. simpl fst; simpl snd. reflexivity.
Qed.

Lemma futures_all_dicts w k cs :
  Forall is_dict cs → Forall (λ p, is_dict p.2) (futures_from w k cs).
Proof.
  intros H. revert k. induction H as [|c cs Hc Hcs IH]; intros k; simpl; by constructor.
Qed.

(** When every fetch succeeds the aggregator returns the candidates, each
    with the forecast of its own task, in the order of completion. *)
Lemma aggregator_output w city cands :
  result (WeatherService.get_city_coordinates w city) = Return (PList cands) →
  cands ≠ [] →
  (∀ i c, cands !! i = Some c → ∃ v, result (fetch_task w i c) = Return v) →
  result (WeatherService.get_city_and_weather_info w city)
    = Return (PList (enriched <$> as_completed (completion w) (futures_from w 0 cands))).
Proof.
  intros Hres Hne Hfetch.
  destruct (aggregator_run w city cands Hres Hne) as [Hd ->].
  rewrite result_prefix, collect_loop_ok; [by rewrite bind_mret|].
  rewrite as_completed_Permutation. apply Forall_forall. intros p Hp.
  split.
  - pose proof (futures_all_dicts w 0 cands Hd) as Hall.
    rewrite Forall_forall in Hall. by apply Hall.
  - apply futures_from_lookup in Hp as (i & c & Hi & ->). simpl.
    apply (Hfetch i c Hi).
Qed.

(** C3: when the resolver yields at least one candidate and every fetch
    succeeds, the aggregator returns a list with as many items as there are
    candidates, and the [weather] field of every item is a list. *)
Theorem aggregator_one_item_per_candidate w city cands :
  result (WeatherService.get_city_coordinates w city) = Return (PList cands) →
  cands ≠ [] →
  (∀ i c, cands !! i = Some c → ∃ v, result (fetch_task w i c) = Return v) →
  ∃ out, result (WeatherService.get_city_and_weather_info w city) = Return (PList out)
         ∧ length out = length cands
         ∧ Forall has_weather_list out.
Proof.
  intros Hres Hne Hfetch. eexists. split; [by apply aggregator_output|]. split.
  - by rewrite length_fmap, as_completed_Permutation, futures_from_length.
  - destruct (aggregator_run w city cands Hres Hne) as [Hd _].
    apply Forall_fmap, Forall_forall. intros p Hp.
    rewrite as_completed_Permutation in Hp.
    apply futures_from_lookup in Hp as (i & c & Hi & ->).
    destruct (Hfetch i c Hi) as [v Hv].
    rewrite Forall_forall in Hd. destruct (Hd c) as [d ->].
    { by eapply list_elem_of_lookup_2. }
    apply get_city_weather_returns_list in Hv as Hl. destruct Hl as [l ->].
    exists (<["weather" := PList l]> d), l. unfold enriched. simpl. rewrite Hv.
    split; [done|]. apply lookup_insert_eq.
Qed.

Lemma aggregator_one_item_per_candidate_witness :
  ∃ out, result (WeatherService.get_city_and_weather_info world_two_places "Guadalajara")
           = Return (PList out)
         ∧ length out = 2%nat
         ∧ Forall has_weather_list out.
Proof.
  apply (aggregator_one_item_per_candidate world_two_places "Guadalajara"
           [candidate (PInt 7) (PStr "20.67") (PStr "-103.35") (PStr "Guadalajara");
            candidate (PInt 8) (PStr "40.63") (PStr "-3.16") PNone]).
  - by vm_compute.
  - discriminate.
  - intros [|[|i]] c [= <-]; eexists; by vm_compute.
Defined.

(** C4: when the resolver yields no candidates (its value is falsy: the
    empty dict or an empty list) the aggregator returns the empty list and
    its only request is the resolver's place search: the fetcher is not
    called. *)
Theorem aggregator_no_candidates w city v :
  result (WeatherService.get_city_coordinates w city) = Return v →
  py_truthy v = false →
  WeatherService.get_city_and_weather_info w city
    = ([HttpGet (places_url city)], Return (PList []))
  ∧ List.filter is_fetch (trace (WeatherService.get_city_and_weather_info w city)) = [].
Proof.
  intros Hres Hv.
  assert (WeatherService.get_city_and_weather_info w city
          = ([HttpGet (places_url city)], Return (PList []))) as Hrun.
  { unfold WeatherService.get_city_and_weather_info.
    rewrite (run_eta (WeatherService.get_city_coordinates w city)).
    rewrite Hres, get_city_coordinates_trace, bind_prefix, Hv. reflexivity. }
  split; [done|]. by rewrite Hrun.
Qed.

Lemma aggregator_no_candidates_witness :
  WeatherService.get_city_and_weather_info world_no_match "Nonexistentville123"
    = ([HttpGet (places_url "Nonexistentville123")], Return (PList []))
  ∧ List.filter is_fetch
      (trace (WeatherService.get_city_and_weather_info world_no_match "Nonexistentville123")) = [].
Proof.
  apply (aggregator_no_candidates world_no_match "Nonexistentville123" (PDict ∅)).
  - by vm_compute.
  - reflexivity.
Defined.

(** C5: when the fetch of some candidate raises, the aggregator raises:
    it returns no list at all, and what it raises is the exception of one
    of the failed fetches. *)
Theorem aggregator_fails_when_a_fetch_fails w city cands i c e :
  result (WeatherService.get_city_coordinates w city) = Return (PList cands) →
  cands !! i = Some c →
  result (fetch_task w i c) = Raise e →
  (∃ e' j c', result (WeatherService.get_city_and_weather_info w city) = Raise e'
              ∧ cands !! j = Some c' ∧ result (fetch_task w j c') = Raise e')
  ∧ ∀ out, result (WeatherService.get_city_and_weather_info w city) ≠ Return out.
Proof.
  intros Hres Hi He.
  assert (cands ≠ []) as Hne by (by destruct cands).
  destruct (aggregator_run w city cands Hres Hne) as [Hd Hrun].
  destruct (collect_loop_raises
              (as_completed (completion w) (futures_from w 0 cands)) [])
    as (p & e' & Hp & He' & Hloop).
  - rewrite as_completed_Permutation. by apply futures_all_dicts.
  - rewrite as_completed_Permutation. apply Exists_exists.
    exists (MkFuture (result (fetch_task w (0 + i) c)), c).
    split; [by apply futures_from_elem|]. simpl. eauto.
  - assert (result (WeatherService.get_city_and_weather_info w city) = Raise e') as Hfail.
    { rewrite Hrun, result_prefix, Hloop. reflexivity. }
    split.
    + rewrite as_completed_Permutation in Hp.
      apply futures_from_lookup in Hp as (j & c' & Hj & ->).
      exists e', j, c'. eauto.
    + intros out. by rewrite Hfail.
Qed.

Lemma aggregator_fails_when_a_fetch_fails_witness :
  (∃ e' j c',
     result (WeatherService.get_city_and_weather_info world_weather_down "Guadalajara") = Raise e'
     ∧ [candidate (PInt 7) (PStr "20.67") (PStr "-103.35") (PStr "Guadalajara");
        candidate (PInt 8) (PStr "40.63") (PStr "-3.16") PNone] !! j = Some c'
     ∧ result (fetch_task world_weather_down j c') = Raise e')
  ∧ ∀ out, result (WeatherService.get_city_and_weather_info world_weather_down "Guadalajara")
           ≠ Return out.
Proof.
  apply (aggregator_fails_when_a_fetch_fails world_weather_down "Guadalajara" _ 1%nat
           (candidate (PInt 8) (PStr "40.63") (PStr "-3.16") PNone)
           (HTTPError 401 "Unauthorized")).
  - by vm_compute.
  - reflexivity.
  - by vm_compute.
Defined.

(** Every run of the aggregator begins with the resolver's request. *)
Lemma aggregator_trace_begins w city :
  ∃ tr, trace (WeatherService.get_city_and_weather_info w city)
        = HttpGet (places_url city) :: tr.
Proof.
  unfold WeatherService.get_city_and_weather_info.
  rewrite trace_bind, get_city_coordinates_trace.
  destruct (result _); eauto.
Qed.

(** ** The request handler *)

Lemma QueryDict_get_missing (q : list (string * string)) (key : string) :
  (∀ value, (key, value) ∉ q) → QueryDict_get q key = None.
Proof.
  intros Hmiss. unfold QueryDict_get.
  assert (filter (λ kv : string * string, kv.1 = key) q = []) as ->; [|done].
  induction q as [|[k v] q IH]; [done|].
  rewrite filter_cons. destruct (decide _) as [Hk|Hk]; simpl in Hk.
  - subst k. destruct (Hmiss v). by left.
  - apply IH. intros value Hin. apply (Hmiss value). by right.
Qed.

(** What the handler does once the [city] parameter is there. *)
Lemma get_with_city w request city :
  QueryDict_get (GET request) "city" = Some city → city ≠ "" →
  WeatherForecastView.get w request
  = try_except
      (result ← WeatherService.get_city_and_weather_info w city;
       if negb (py_truthy result)
       then mret (WeatherForecastView.error_response "City not found" 404)
       else mret (MkJsonResponse result 200))
      (λ err,
        _ ← emit (LogError (log_text err) city err);
        mret (WeatherForecastView.error_response
                "An error occurred, please try again later." 500)).
Proof.
  intros Hq Hcity. unfold WeatherForecastView.get. rewrite Hq. simpl from_option.
  assert (py_truthy (PStr city) = true) as ->.
  { simpl. apply negb_true_iff, String.eqb_neq. done. }
  simpl negb. cbv iota. simpl default.
  unfold try_except. destruct (snd _) as [r|[]]; reflexivity.
Qed.

(** C6: a request whose [city] parameter is missing or empty is answered
    400 with the body [{"error": "City name is required"}], and nothing
    else happens: no request goes out, whereas every run of the aggregator
    begins with one. *)
Theorem handler_requires_city w request :
  QueryDict_get (GET request) "city" = None
  ∨ QueryDict_get (GET request) "city" = Some "" →
  WeatherForecastView.get w request
    = ([], Return (MkJsonResponse (PDict {["error" := PStr "City name is required"]}) 400))
  ∧ ∀ city, trace (WeatherService.get_city_and_weather_info w city) ≠ [].
Proof.
  intros Hq. split.
  - unfold WeatherForecastView.get. by destruct Hq as [-> | ->].
  - intros city. by destruct (aggregator_trace_begins w city) as [tr ->].
Qed.

Lemma handler_requires_city_witness :
  WeatherForecastView.get world_two_places (MkHttpRequest [("city", "")])
    = ([], Return (MkJsonResponse (PDict {["error" := PStr "City name is required"]}) 400))
  ∧ WeatherForecastView.get world_two_places (MkHttpRequest [("lang", "es")])
    = ([], Return (MkJsonResponse (PDict {["error" := PStr "City name is required"]}) 400)).
Proof.
  split.
  - apply (handler_requires_city world_two_places (MkHttpRequest [("city", "")])).
    right. reflexivity.
  - apply (handler_requires_city world_two_places (MkHttpRequest [("lang", "es")])).
    left. reflexivity.
Defined.

(** C7: when the [city] parameter is there and the aggregator returns the
    empty list, the answer is 404 with the body
    [{"error": "City not found"}]; nothing is logged. *)
Theorem handler_city_not_found w request city :
  QueryDict_get (GET request) "city" = Some city → city ≠ "" →
  result (WeatherService.get_city_and_weather_info w city) = Return (PList []) →
  WeatherForecastView.get w request
    = (trace (WeatherService.get_city_and_weather_info w city),
       Return (MkJsonResponse (PDict {["error" := PStr "City not found"]}) 404)).
Proof.
  intros Hq Hcity Hres. rewrite (get_with_city w request city) by done.
  rewrite (run_eta (WeatherService.get_city_and_weather_info w city)), Hres.
  rewrite bind_prefix. unfold try_except, prefix. simpl. by rewrite app_nil_r.
Qed.

Lemma handler_city_not_found_witness :
  WeatherForecastView.get world_no_match (MkHttpRequest [("city", "Nonexistentville123")])
    = (trace (WeatherService.get_city_and_weather_info world_no_match "Nonexistentville123"),
       Return (MkJsonResponse (PDict {["error" := PStr "City not found"]}) 404)).
Proof.
  apply (handler_city_not_found world_no_match
           (MkHttpRequest [("city", "Nonexistentville123")]) "Nonexistentville123").
  - reflexivity.
  - discriminate.
  - by vm_compute.
Defined.

(** C8: when the aggregator raises, whatever the exception (an HTTP error
    status, another failure of the HTTP client, or anything else), the
    answer is 500 with the one generic body
    [{"error": "An error occurred, please try again later."}], which does
    not depend on the exception; the exception goes to the log, in one
    record that names the city. *)
Theorem handler_hides_the_cause w request city e :
  QueryDict_get (GET request) "city" = Some city → city ≠ "" →
  result (WeatherService.get_city_and_weather_info w city) = Raise e →
  WeatherForecastView.get w request
    = (trace (WeatherService.get_city_and_weather_info w city)
         ++ [LogError (log_text e) city e],
       Return (MkJsonResponse
                 (PDict {["error" := PStr "An error occurred, please try again later."]})
                 500)).
Proof.
  intros Hq Hcity Hres. rewrite (get_with_city w request city) by done.
  rewrite (run_eta (WeatherService.get_city_and_weather_info w city)), Hres.
  reflexivity.
Qed.

Lemma handler_hides_the_cause_witness :
  WeatherForecastView.get world_weather_down (MkHttpRequest [("city", "Guadalajara")])
    = (trace (WeatherService.get_city_and_weather_info world_weather_down "Guadalajara")
         ++ [LogError "HTTP error occurred for city" "Guadalajara"
               (HTTPError 401 "Unauthorized")],
       Return (MkJsonResponse
                 (PDict {["error" := PStr "An error occurred, please try again later."]})
                 500))
  ∧ WeatherForecastView.get world_places_down (MkHttpRequest [("city", "Guadalajara")])
    = (trace (WeatherService.get_city_and_weather_info world_places_down "Guadalajara")
         ++ [LogError "Request error occurred for city" "Guadalajara"
               (RequestException "ConnectionError" "Connection refused")],
       Return (MkJsonResponse
                 (PDict {["error" := PStr "An error occurred, please try again later."]})
                 500)).
Proof.
  split.
  - apply (handler_hides_the_cause world_weather_down
             (MkHttpRequest [("city", "Guadalajara")]) "Guadalajara"
             (HTTPError 401 "Unauthorized")).
    + reflexivity.
    + discriminate.
    + by vm_compute.
  - apply (handler_hides_the_cause world_places_down
             (MkHttpRequest [("city", "Guadalajara")]) "Guadalajara"
             (RequestException "ConnectionError" "Connection refused")).
    + reflexivity.
    + discriminate.
    + by vm_compute.
Defined.

(** * Further properties *)

(** ** Loops that fail *)

(** A loop fails as soon as one of its items makes the body fail, whatever
    the rounds before it did. *)
Lemma for_each_Exists_raises {A S} (body : A → S → M S) (xs : list A) :
  Exists (λ x, ∀ s, ∃ e, result (body x s) = Raise e) xs →
  ∀ s, ∃ e, result (for_each body xs s) = Raise e.
Proof.
  induction xs as [|x xs IH]; intros Hex s; [by inversion Hex|].
  cbn [for_each]. rewrite result_bind.
  destruct (result (body x s)) as [s'|e] eqn:Hx; [|eauto].
  inversion Hex as [? ? Hhead|? ? Htail]; subst.
  - destruct (Hhead s) as [e He]. congruence.
  - by apply IH.
Qed.


(** ** The resolver, on every response *)


(** X1: whatever the upstream does, one run of the resolver sends exactly
    one request: the place search, with the city name as given for [q]. *)
Theorem resolver_one_request w city :
  trace (WeatherService.get_city_coordinates w city) = [HttpGet (places_url city)]
  ∧ places_url city
    = Request "https://search.reservamos.mx/api/v2/places" [("q", PStr city)].
Proof. split; [apply get_city_coordinates_trace | reflexivity]. Qed.

(** X2: the resolver lets the failures of its request through unchanged:
    without a response it raises the client's exception, and on a status
    from 400 to 599 it raises the HTTP error of that status, whatever the
    body. *)
Theorem resolver_propagates_failures w city :
  (∀ kind detail,
     places_api w (places_url city) = NoResponse kind detail →
     WeatherService.get_city_coordinates w city
       = ([HttpGet (places_url city)], Raise (RequestException kind detail)))
  ∧ (∀ s reason body,
       places_api w (places_url city) = Response s reason body →
       (400 ≤ s < 600)%Z →
       WeatherService.get_city_coordinates w city
         = ([HttpGet (places_url city)], Raise (HTTPError s reason))).
Proof.
  split.
  - intros kind detail Hup. unfold WeatherService.get_city_coordinates.
    rewrite requests_get_bind. change (Request _ _) with (places_url city).
    by rewrite Hup.
  - intros s reason body Hup Hs. unfold WeatherService.get_city_coordinates.
    rewrite requests_get_bind. change (Request _ _) with (places_url city).
    rewrite Hup, raise_for_status_error by done. by rewrite bind_raise.
Qed.

Lemma resolver_propagates_failures_witness :
  WeatherService.get_city_coordinates world_places_down "Guadalajara"
    = ([HttpGet (places_url "Guadalajara")],
       Raise (RequestException "ConnectionError" "Connection refused"))
  ∧ WeatherService.get_city_coordinates world_places_error "Guadalajara"
    = ([HttpGet (places_url "Guadalajara")],
       Raise (HTTPError 503 "Service Unavailable")).
Proof.
  split.
  - apply (proj1 (resolver_propagates_failures world_places_down "Guadalajara")).
    reflexivity.
  - apply (proj2 (resolver_propagates_failures world_places_error "Guadalajara")
             503%Z "Service Unavailable" None).
    + reflexivity.
    + lia.
Defined.

(** X3: on any falsy body (null, false, 0, the empty string, the empty
    array, the empty object) the resolver returns the empty dict. *)
Theorem resolver_falsy_body w city s reason data :
  places_api w (places_url city) = Response s reason (Some data) →
  status_ok s → py_truthy data = false →
  WeatherService.get_city_coordinates w city
    = ([HttpGet (places_url city)], Return (PDict ∅)).
Proof.
  intros Hup Hs Hdata. unfold WeatherService.get_city_coordinates.
  rewrite requests_get_bind. change (Request _ _) with (places_url city). rewrite Hup.
  rewrite raise_for_status_ok by done. rewrite bind_mret; cbv beta.
  rewrite json_body, bind_mret; cbv beta. by rewrite Hdata.
Qed.

Lemma resolver_falsy_body_witness :
  WeatherService.get_city_coordinates world_null_body "Guadalajara"
    = ([HttpGet (places_url "Guadalajara")], Return (PDict ∅)).
Proof.
  apply (resolver_falsy_body world_null_body "Guadalajara" 200%Z "OK" PNone).
  - reflexivity.
  - sample_status.
  - reflexivity.
Defined.





Lemma candidate_of_keys res :
  ∃ d, candidate_of res = PDict d ∧ dom d = candidate_keys.
Proof.
  unfold candidate_of, candidate. eexists. split; [reflexivity|].
  rewrite !dom_insert_L, dom_empty_L. unfold candidate_keys. set_solver.
Qed.

(** X5: whatever the upstream sends, what the resolver returns is the
    empty dict or a list of records that have exactly the four keys [id],
    [lat], [long], [city_name], the first three with a truthy value: no
    other field of the upstream comes through, and no record without
    coordinates. *)
Theorem resolver_returns_candidates w city v :
  result (WeatherService.get_city_coordinates w city) = Return v →
  v = PDict ∅
  ∨ ∃ out, v = PList out
      ∧ Forall (λ c, (∃ d, c = PDict d ∧ dom d = candidate_keys)
                     ∧ all_truthy c = true) out.
Proof.
  unfold WeatherService.get_city_coordinates. intros H.
  apply result_bind_Return in H as (response & _ & H).
  apply result_bind_Return in H as (_ & _ & H).
  apply result_bind_Return in H as (data & _ & H).
  destruct (py_truthy data); [|left; by injection H].
  apply result_bind_Return in H as (items & _ & H).
  apply result_bind_Return in H as (data_aux & Hloop & H).
  right. exists data_aux. split; [by injection H|].
  revert Hloop. apply for_each_invariant; [|constructor].
  intros res acc acc' Hacc Hbody.
  destruct (is_dict_dec res) as [Hd|Hd].
  - rewrite resolver_body_dict in Hbody by done. injection Hbody as <-.
    apply Forall_app. split; [done|].
    destruct (all_truthy res) eqn:Ht; repeat constructor.
    + apply candidate_of_keys.
    + by rewrite all_truthy_candidate_of.
  - destruct (py_get_not_dict res "id" Hd) as [e He].
    unfold py_and in Hbody. rewrite He, !bind_raise in Hbody. done.
Qed.

Lemma resolver_returns_candidates_witness :
  PList [candidate (PInt 7) (PStr "20.67") (PStr "-103.35") (PStr "Guadalajara");
         candidate (PInt 8) (PStr "40.63") (PStr "-3.16") PNone] = PDict ∅
  ∨ ∃ out,
      PList [candidate (PInt 7) (PStr "20.67") (PStr "-103.35") (PStr "Guadalajara");
             candidate (PInt 8) (PStr "40.63") (PStr "-3.16") PNone] = PList out
      ∧ Forall (λ c, (∃ d, c = PDict d ∧ dom d = candidate_keys)
                     ∧ all_truthy c = true) out.
Proof.
  apply (resolver_returns_candidates world_two_places "Guadalajara").
  by vm_compute.
Defined.

(** ** The fetcher, on every response *)


(** X7: the fetcher lets the failures of its request through unchanged:
    without a response it raises the client's exception, and on a status
    from 400 to 599 it raises the HTTP error of that status. *)
Theorem fetcher_propagates_failures w upstream lat long :
  (∀ kind detail,
     upstream (onecall_url lat long) = NoResponse kind detail →
     WeatherService.get_city_weather w upstream lat long
       = ([HttpGet (onecall_url lat long)], Raise (RequestException kind detail)))
  ∧ (∀ s reason body,
       upstream (onecall_url lat long) = Response s reason body →
       (400 ≤ s < 600)%Z →
       WeatherService.get_city_weather w upstream lat long
         = ([HttpGet (onecall_url lat long)], Raise (HTTPError s reason))).
Proof.
  split.
  - intros kind detail Hup. unfold WeatherService.get_city_weather.
    rewrite requests_get_bind. change (Request _ _) with (onecall_url lat long).
    by rewrite Hup.
  - intros s reason body Hup Hs. unfold WeatherService.get_city_weather.
    rewrite requests_get_bind. change (Request _ _) with (onecall_url lat long).
    rewrite Hup, raise_for_status_error by done. by rewrite bind_raise.
Qed.

Lemma fetcher_propagates_failures_witness :
  WeatherService.get_city_weather world_weather_down
      (λ _, NoResponse "Timeout" "Read timed out") (PStr "20.67") (PStr "-103.35")
    = ([HttpGet (onecall_url (PStr "20.67") (PStr "-103.35"))],
       Raise (RequestException "Timeout" "Read timed out"))
  ∧ WeatherService.get_city_weather world_weather_down
      (weather_api world_weather_down 0) (PStr "20.67") (PStr "-103.35")
    = ([HttpGet (onecall_url (PStr "20.67") (PStr "-103.35"))],
       Raise (HTTPError 401 "Unauthorized")).
Proof.
  split.
  - apply (proj1 (fetcher_propagates_failures world_weather_down
                    (λ _, NoResponse "Timeout" "Read timed out")
                    (PStr "20.67") (PStr "-103.35"))).
    reflexivity.
  - apply (proj2 (fetcher_propagates_failures world_weather_down
                    (weather_api world_weather_down 0)
                    (PStr "20.67") (PStr "-103.35")) 401%Z "Unauthorized" None).
    + reflexivity.
    + lia.
Defined.

Section ReturnedDates.
Local Open Scope Z_scope.

Lemma localtime_returns w t broken :
  result (localtime w t) = Return broken →
  ∃ y m d h mi s, local_date w t = (y, m, d)
                  ∧ INT_MIN ≤ y - 1900 ≤ INT_MAX
                  ∧ broken = MkTm (y - 1900) (m - 1) d h mi s.
Proof.
  unfold localtime, local_date. cbv zeta. destruct (ord2ymd _) as [[y m] d].
  destruct (Z.leb_spec INT_MIN (y - 1900)), (Z.leb_spec (y - 1900) INT_MAX);
    simpl; try done.
  intros [= <-]. by repeat eexists.
Qed.

(** Whatever the timestamp, a date that [fromtimestamp] returns is a date
    of the calendar, in the years 1 to 9999. *)
Lemma fromtimestamp_returns_date w v when :
  result (fromtimestamp w v) = Return when →
  1 ≤ year when ≤ 9999 ∧ 1 ≤ month when ≤ 12
  ∧ 1 ≤ day when ≤ days_in_month (year when) (month when).
Proof.
  unfold fromtimestamp. intros H.
  apply result_bind_Return in H as (timet & _ & H).
  destruct (_ && _); [|done].
  apply result_bind_Return in H as (broken & Hbroken & H). cbv zeta in H.
  apply result_bind_Return in H as (result_seconds & Hseconds & H).
  apply result_bind_Return in H as (probe_seconds & _ & H).
  apply result_bind_Return in H as (fold & _ & H).
  injection H as <-. cbn [year month day].
  apply localtime_returns in Hbroken as (y & m & d & h & mi & sec & E & Hint & ->).
  cbn [tm_year tm_mon tm_mday tm_hour tm_min tm_sec] in *.
  revert Hseconds. unfold utc_to_seconds, MINYEAR, MAXYEAR.
  destruct (Z.ltb_spec (wrap_int (y - 1900 + 1900)) 1) as [|Hlo]; [by simpl|].
  destruct (Z.ltb_spec 9999 (wrap_int (y - 1900 + 1900))) as [|Hhi]; [by simpl|].
  intros _.
  assert (wrap_int (y - 1900 + 1900) = y) as Ewrap.
  { revert Hlo Hhi Hint. unfold wrap_int, INT_MIN, INT_MAX.
    change (2 ^ 31) with 2147483648. change (2 ^ 32) with 4294967296.
    intros. Z.div_mod_to_equations. lia. }
  rewrite Ewrap in *.
  replace (m - 1 + 1) with m by lia.
  pose proof (ord2ymd_correct ((timet + utcoffset w timet) / 86400 + EPOCH_ORDINAL))
    as (_ & Hm & Hd).
  unfold local_date in E. rewrite E in Hm, Hd. cbn [fst snd] in Hm, Hd. lia.
Qed.

End ReturnedDates.

(** X8: whatever the upstream sends, what the fetcher returns is a list of
    records that have exactly the three keys [datetime], [temp_min],
    [temp_max], where [datetime] is a string that writes a date of the
    calendar: a year from 1 to 9999 in decimal without padding (so four
    digits from the year 1000 on only), a month from 01 to 12 and a day of
    that month, with two digits each. *)
Theorem fetcher_returns_records w upstream lat long v :
  result (WeatherService.get_city_weather w upstream lat long) = Return v →
  ∃ records, v = PList records
    ∧ Forall (λ r, ∃ y m d lo hi,
        r = forecast (numeral y +:+ "-" +:+ dec2 m +:+ "-" +:+ dec2 d) lo hi
        ∧ (1 ≤ y ≤ 9999 ∧ 1 ≤ m ≤ 12 ∧ 1 ≤ d ≤ days_in_month y m)%Z) records.
Proof.
  unfold WeatherService.get_city_weather. intros H.
  apply result_bind_Return in H as (response & _ & H).
  apply result_bind_Return in H as (_ & _ & H).
  apply result_bind_Return in H as (data & _ & H).
  apply result_bind_Return in H as (test & _ & H).
  destruct (py_truthy test); [|injection H as <-; by exists []].
  apply result_bind_Return in H as (daily & _ & H).
  apply result_bind_Return in H as (days & _ & H).
  apply result_bind_Return in H as (forecast_data & Hloop & H).
  injection H as <-. exists forecast_data. split; [done|].
  revert Hloop. apply for_each_invariant; [|constructor].
  intros entry acc acc' Hacc Hbody.
  apply result_bind_Return in Hbody as (dt & _ & Hbody).
  apply result_bind_Return in Hbody as (when & Hwhen & Hbody).
  apply result_bind_Return in Hbody as (temp & _ & Hbody).
  apply result_bind_Return in Hbody as (temp_min & _ & Hbody).
  apply result_bind_Return in Hbody as (temp' & _ & Hbody).
  apply result_bind_Return in Hbody as (temp_max & _ & Hbody).
  injection Hbody as <-. apply Forall_app. split; [done|].
  repeat constructor.
  exists (year when), (month when), (day when), temp_min, temp_max.
  split; [reflexivity | by apply (fromtimestamp_returns_date w dt)].
Qed.

Lemma fetcher_returns_records_witness :
  ∃ records,
    PList [forecast "68-09-03" (PInt 10) (PInt 20)] = PList records
    ∧ Forall (λ r, ∃ y m d lo hi,
        r = forecast (numeral y +:+ "-" +:+ dec2 m +:+ "-" +:+ dec2 d) lo hi
        ∧ (1 ≤ y ≤ 9999 ∧ 1 ≤ m ≤ 12 ∧ 1 ≤ d ≤ days_in_month y m)%Z) records.
Proof.
  apply (fetcher_returns_records (world_utc (-60000000000))
           (weather_api (world_utc (-60000000000)) 0) (PStr "20.67") (PStr "-103.35")).
  by vm_compute.
Defined.

(** X9: the fetcher returns the empty list, without an error, on every
    falsy payload (null, the empty object, the empty array, 0) and on every
    object whose [daily] is missing or falsy (null, the empty array). *)
Theorem fetcher_empty_cases w upstream lat long s reason data :
  upstream (onecall_url lat long) = Response s reason (Some data) →
  status_ok s →
  py_truthy data = false ∨ (is_dict data ∧ py_truthy (field data "daily") = false) →
  WeatherService.get_city_weather w upstream lat long
    = ([HttpGet (onecall_url lat long)], Return (PList [])).
Proof.
  intros Hup Hs Hcase. unfold WeatherService.get_city_weather.
  rewrite requests_get_bind. change (Request _ _) with (onecall_url lat long).
  rewrite Hup. rewrite raise_for_status_ok by done. rewrite bind_mret; cbv beta.
  rewrite json_body, bind_mret; cbv beta.
  unfold py_and. rewrite bind_mret.
  destruct (py_truthy data) eqn:Hdata.
  - destruct Hcase as [|[Hd Hdaily]]; [done|].
    rewrite py_get_dict, bind_mret by done. by rewrite Hdaily.
  - rewrite bind_mret. by rewrite Hdata.
Qed.

Lemma fetcher_empty_cases_witness :
  WeatherService.get_city_weather world_daily_null
      (weather_api world_daily_null 0) (PStr "20.67") (PStr "-103.35")
    = ([HttpGet (onecall_url (PStr "20.67") (PStr "-103.35"))], Return (PList [])).
Proof.
  apply (fetcher_empty_cases world_daily_null (weather_api world_daily_null 0)
           (PStr "20.67") (PStr "-103.35") 200%Z "OK"
           (PDict (<["daily" := PNone]> ∅))).
  - reflexivity.
  - sample_status.
  - right. split; [by eexists|reflexivity].
Defined.

Lemma fromtimestamp_type_error w v :
  not_timestamp v → ∃ e, fromtimestamp w v = raise e.
Proof. destruct v; try done; intros _; by eexists. Qed.

(** One round of the fetcher's loop on a malformed entry fails. *)
Lemma fetcher_body_malformed w (day : pyval) (forecast_data : list pyval) :
  malformed_entry day →
  ∃ e, result
    (dt ← py_get day "dt";
     when ← fromtimestamp w dt;
     let d_aux : gmap string pyval := <["datetime" := PStr (strftime_Ymd when)]> ∅ in
     temp ← py_get day "temp";
     temp_min ← py_get temp "min";
     let d_aux := <["temp_min" := temp_min]> d_aux in
     temp ← py_get day "temp";
     temp_max ← py_get temp "max";
     let d_aux := <["temp_max" := temp_max]> d_aux in
     mret (forecast_data ++ [PDict d_aux])) = Raise e.
Proof.
  intros Hbad. destruct (is_dict_dec day) as [Hd|Hd].
  - rewrite (py_get_dict day "dt"), bind_mret by done.
    destruct Hbad as [Hbad|[Hbad|Hbad]]; [done| |].
    + destruct (fromtimestamp_type_error w _ Hbad) as [e ->]. by exists e.
    + rewrite result_bind. destruct (result (fromtimestamp w _)) as [when|e]; [|eauto].
      rewrite (py_get_dict day "temp"), bind_mret by done.
      destruct (py_get_not_dict (field day "temp") "min" Hbad) as [e ->]. by exists e.
  - destruct (py_get_not_dict day "dt" Hd) as [e ->]. by exists e.
Qed.

(** X10: one malformed entry in [daily] (an entry that is not an object,
    or has no numeric [dt], or no object [temp]) makes the whole fetch
    raise: the entries before it are not returned. *)
Theorem fetcher_rejects_malformed_entry w upstream lat long s reason data days :
  upstream (onecall_url lat long) = Response s reason (Some (PDict data)) →
  status_ok s →
  data !! "daily" = Some (PList days) →
  Exists malformed_entry days →
  ∃ e, result (WeatherService.get_city_weather w upstream lat long) = Raise e.
Proof.
  intros Hup Hs Hdaily Hex. unfold WeatherService.get_city_weather.
  rewrite requests_get_bind. change (Request _ _) with (onecall_url lat long).
  rewrite Hup. rewrite raise_for_status_ok by done. rewrite bind_mret; cbv beta.
  rewrite json_body, bind_mret; cbv beta. rewrite result_prefix.
  destruct (daily_test data) as [-> | [-> _]]; [|by rewrite lookup_empty in Hdaily].
  rewrite bind_mret; cbv beta. rewrite Hdaily. simpl default.
  assert (py_truthy (PList days) = true) as -> by (destruct days; [inversion Hex|done]).
  rewrite (py_get_dict (PDict data)), bind_mret by (by eexists). cbv beta.
  simpl field. rewrite Hdaily. simpl default.
  unfold py_iter. rewrite bind_mret; cbv beta. rewrite result_bind.
  match goal with |- context [for_each ?body days []] =>
    destruct (for_each_Exists_raises body days) with (s := @nil pyval) as [e ->]
  end; [|eauto].
  eapply Exists_impl; [exact Hex|]. intros day Hday acc. cbv beta.
  destruct (fetcher_body_malformed w day acc Hday) as [e He]. cbv zeta in He. eauto.
Qed.

Lemma fetcher_rejects_malformed_entry_witness :
  ∃ e, result (WeatherService.get_city_weather world_bad_entry
                 (weather_api world_bad_entry 0) (PStr "20.67") (PStr "-103.35"))
       = Raise e.
Proof.
  apply (fetcher_rejects_malformed_entry world_bad_entry (weather_api world_bad_entry 0)
           (PStr "20.67") (PStr "-103.35") 200%Z "OK"
           (<["daily" := PList [daily 1700000000 10 20;
                                PDict (<["dt" := PInt 1700086400]> ∅)]]> ∅)
           [daily 1700000000 10 20; PDict (<["dt" := PInt 1700086400]> ∅)]).
  - reflexivity.
  - sample_status.
  - reflexivity.
  - apply Exists_cons_tl, Exists_cons_hd. right. right.
    intros [d Hd]. discriminate Hd.
Defined.

Section Dates.
Local Open Scope Z_scope.

Lemma date_string_inj y m d y' m' d' :
  0 ≤ y < 10000 → 0 ≤ m < 100 → 0 ≤ d < 100 →
  0 ≤ y' < 10000 → 0 ≤ m' < 100 → 0 ≤ d' < 100 →
  date_string (y, m, d) = date_string (y', m', d') →
  y = y' ∧ m = m' ∧ d = d'.
Proof.
  intros Hy Hm Hd Hy' Hm' Hd' H. unfold date_string, dec4, dec2 in H. simpl in H.
  injection H as H1 H2 H3 H4 H5 H6 H7 H8.
  assert (dec4 y = dec4 y') as Ey by (unfold dec4, dec2; congruence).
  assert (dec2 m = dec2 m') as Em by (unfold dec2; congruence).
  assert (dec2 d = dec2 d') as Ed by (unfold dec2; congruence).
  apply (f_equal number_of) in Ey, Em, Ed.
  rewrite !number_of_dec4 in Ey by lia. rewrite !number_of_dec2 in Em, Ed by lia.
  done.
Qed.

Lemma days_in_month_le_31 y m : days_in_month y m ≤ 31.
Proof. unfold days_in_month. repeat case_match; lia. Qed.

(** The dates of the forecast records of two entries are equal exactly
    when the two timestamps fall on the same local calendar day. *)
Lemma forecast_of_same_date w day1 day2 t1 t2 :
  daily_entry w day1 → daily_entry w day2 →
  field day1 "dt" = PInt t1 → field day2 "dt" = PInt t2 →
  field (forecast_of w day1) "datetime" = field (forecast_of w day2) "datetime"
  ↔ local_day w t1 = local_day w t2.
Proof.
  intros (t1' & _ & Hdt1 & Hy1 & _) (t2' & _ & Hdt2 & Hy2 & _) E1 E2.
  rewrite E1 in Hdt1. rewrite E2 in Hdt2.
  injection Hdt1 as <-. injection Hdt2 as <-.
  unfold forecast_of. rewrite E1, E2. unfold forecast. simpl field.
  unfold timestamp_ok, local_date, local_day in *.
  remember ((t1 + utcoffset w t1) / 86400 + EPOCH_ORDINAL) as n1 eqn:N1.
  remember ((t2 + utcoffset w t2) / 86400 + EPOCH_ORDINAL) as n2 eqn:N2.
  pose proof (ord2ymd_correct n1) as (R1 & M1 & D1).
  pose proof (ord2ymd_correct n2) as (R2 & M2 & D2).
  split.
  - intros H. injection H as H.
    destruct (ord2ymd n1) as [[y1 m1] d1].
    destruct (ord2ymd n2) as [[y2 m2] d2].
    cbn [fst snd] in Hy1, Hy2, R1, M1, D1, R2, M2, D2.
    pose proof (days_in_month_le_31 y1 m1) as L1.
    pose proof (days_in_month_le_31 y2 m2) as L2.
    apply date_string_inj in H as (-> & -> & ->); try lia.
  - intros H. assert (n1 = n2) as -> by lia. done.
Qed.

(** X11: when the local time is less than a day away from UTC, on a
    response whose [daily] entries follow the upstream's schema, with
    timestamps whose local dates are in the years 1000 to 9998, the fetcher
    returns one record per entry, and the [datetime] strings of two of its
    records are equal exactly when the timestamps of their two entries fall
    on the same local calendar day. *)
Theorem forecast_dates_follow_local_days w upstream lat long s reason data days :
  clock_ok w →
  upstream (onecall_url lat long) = Response s reason (Some (PDict data)) →
  status_ok s →
  data !! "daily" = Some (PList days) → Forall (daily_entry w) days →
  ∃ records,
    result (WeatherService.get_city_weather w upstream lat long) = Return (PList records)
    ∧ length records = length days
    ∧ ∀ i j day1 day2 t1 t2 r1 r2,
        days !! i = Some day1 → days !! j = Some day2 →
        field day1 "dt" = PInt t1 → field day2 "dt" = PInt t2 →
        records !! i = Some r1 → records !! j = Some r2 →
        field r1 "datetime" = field r2 "datetime" ↔ local_day w t1 = local_day w t2.
Proof.
  intros Hclock Hup Hs Hdaily Hdays.
  destruct (get_city_weather_run w upstream lat long s reason data Hclock Hup Hs)
    as [Hrun _].
  exists (forecast_of w <$> days). split; [by rewrite (Hrun days)|].
  split; [by rewrite length_fmap|].
  intros i j day1 day2 t1 t2 r1 r2 Hi Hj Ht1 Ht2 Hr1 Hr2.
  rewrite list_lookup_fmap, Hi in Hr1. rewrite list_lookup_fmap, Hj in Hr2.
  injection Hr1 as <-. injection Hr2 as <-.
  rewrite Forall_lookup in Hdays.
  apply forecast_of_same_date; eauto.
Qed.

End Dates.

Lemma forecast_dates_follow_local_days_witness :
  ∃ records,
    result (WeatherService.get_city_weather world_same_day
              (weather_api world_same_day 0) (PStr "20.67") (PStr "-103.35"))
      = Return (PList records)
    ∧ length records = 3%nat
    ∧ ∀ i j day1 day2 t1 t2 r1 r2,
        [daily 1700000000 10 20; daily 1700003600 12 22; daily 1700086400 11 21] !! i
          = Some day1 →
        [daily 1700000000 10 20; daily 1700003600 12 22; daily 1700086400 11 21] !! j
          = Some day2 →
        field day1 "dt" = PInt t1 → field day2 "dt" = PInt t2 →
        records !! i = Some r1 → records !! j = Some r2 →
        field r1 "datetime" = field r2 "datetime"
        ↔ local_day world_same_day t1 = local_day world_same_day t2.
Proof.
  apply (forecast_dates_follow_local_days world_same_day (weather_api world_same_day 0)
           (PStr "20.67") (PStr "-103.35") 200%Z "OK"
           (<["daily" := PList [daily 1700000000 10 20; daily 1700003600 12 22;
                                daily 1700086400 11 21]]> ∅)
           [daily 1700000000 10 20; daily 1700003600 12 22; daily 1700086400 11 21]).
  - apply sample_clock_ok.
  - reflexivity.
  - sample_status.
  - reflexivity.
  - repeat constructor.
    + exists 1700000000%Z. repeat split; try (by eexists); by vm_compute.
    + exists 1700003600%Z. repeat split; try (by eexists); by vm_compute.
    + exists 1700086400%Z. repeat split; try (by eexists); by vm_compute.
Defined.

(** ** The aggregator, on every run *)

Lemma aggregator_propagates_resolver_failure_aux w city e :
  result (WeatherService.get_city_coordinates w city) = Raise e →
  WeatherService.get_city_and_weather_info w city
    = ([HttpGet (places_url city)], Raise e).
Proof.
  intros Hres. unfold WeatherService.get_city_and_weather_info.
  rewrite (run_eta (WeatherService.get_city_coordinates w city)).
  by rewrite Hres, get_city_coordinates_trace.
Qed.

(** X12: when the resolver raises, the aggregator raises the same
    exception, after the resolver's request alone: no fetch is made. *)
Theorem aggregator_propagates_resolver_failure w city e :
  result (WeatherService.get_city_coordinates w city) = Raise e →
  WeatherService.get_city_and_weather_info w city
    = ([HttpGet (places_url city)], Raise e)
  ∧ List.filter is_fetch (trace (WeatherService.get_city_and_weather_info w city)) = [].
Proof.
  intros Hres. rewrite (aggregator_propagates_resolver_failure_aux w city e Hres).
  by split.
Qed.

Lemma aggregator_propagates_resolver_failure_witness :
  WeatherService.get_city_and_weather_info world_places_error "Guadalajara"
    = ([HttpGet (places_url "Guadalajara")],
       Raise (HTTPError 503 "Service Unavailable"))
  ∧ List.filter is_fetch
      (trace (WeatherService.get_city_and_weather_info world_places_error "Guadalajara"))
    = [].
Proof.
  apply (aggregator_propagates_resolver_failure world_places_error "Guadalajara").
  by vm_compute.
Defined.

(** The requests of the aggregator when the resolver returns a list, the
    forecast requests in the order in which the trace lists the events of
    the worker tasks. *)
Lemma aggregator_trace_of_candidates w city cands :
  result (WeatherService.get_city_coordinates w city) = Return (PList cands) →
  trace (WeatherService.get_city_and_weather_info w city)
    = HttpGet (places_url city) :: (fetch_request <$> cands).
Proof.
  intros Hres. destruct cands as [|c cands].
  - unfold WeatherService.get_city_and_weather_info.
    rewrite (run_eta (WeatherService.get_city_coordinates w city)).
    by rewrite Hres, get_city_coordinates_trace, bind_prefix.
  - destruct (aggregator_run w city (c :: cands) Hres) as [Hd ->]; [done|].
    rewrite trace_prefix, fetch_events_are_fetches.
    match goal with |- _ ++ trace ?m = _ => assert (silent m) as -> end.
    { apply silent_bind; [|intros; apply silent_mret].
      apply silent_for_each. intros [fut city_res] acc. silence. }
    by rewrite app_nil_r.
Qed.



Lemma field_with_weather_other (c v : pyval) (key : string) :
  key ≠ "weather" → field (with_weather c v) key = field c key.
Proof.
  intros Hkey. destruct c; try done. simpl. by rewrite lookup_insert_ne.
Qed.

Lemma field_with_weather (c v : pyval) :
  is_dict c → field (with_weather c v) "weather" = v.
Proof. intros [d ->]. simpl. by rewrite lookup_insert_eq. Qed.

(** X14: when every fetch succeeds, the output is, up to the order of
    completion, the list of the candidates, each with the forecast of its
    own fetch under [weather] and its [id], [lat], [long] and [city_name]
    unchanged. *)
Theorem aggregator_pairs_candidates_with_forecasts w city cands :
  result (WeatherService.get_city_coordinates w city) = Return (PList cands) →
  cands ≠ [] →
  (∀ i c, cands !! i = Some c → ∃ v, result (fetch_task w i c) = Return v) →
  ∃ out, result (WeatherService.get_city_and_weather_info w city) = Return (PList out)
    ∧ out ≡ₚ enriched <$> futures_from w 0 cands
    ∧ ∀ item, item ∈ out →
        ∃ i c v, cands !! i = Some c ∧ result (fetch_task w i c) = Return v
          ∧ item = with_weather c v
          ∧ field item "weather" = v
          ∧ field item "id" = field c "id" ∧ field item "lat" = field c "lat"
          ∧ field item "long" = field c "long"
          ∧ field item "city_name" = field c "city_name".
Proof.
  intros Hres Hne Hfetch. eexists. split; [by apply aggregator_output|].
  split; [by rewrite as_completed_Permutation|].
  destruct (aggregator_run w city cands Hres Hne) as [Hd _].
  intros item Hitem. apply list_elem_of_fmap in Hitem as (p & -> & Hp).
  rewrite as_completed_Permutation in Hp.
  apply futures_from_lookup in Hp as (i & c & Hi & ->).
  destruct (Hfetch i c Hi) as [v Hv]. exists i, c, v.
  assert (is_dict c) as Hc.
  { rewrite Forall_forall in Hd. apply Hd. by eapply list_elem_of_lookup_2. }
  unfold enriched. simpl. rewrite Hv.
  rewrite field_with_weather, !field_with_weather_other by done. done.
Qed.

Lemma aggregator_pairs_candidates_with_forecasts_witness :
  ∃ out,
    result (WeatherService.get_city_and_weather_info world_two_places "Guadalajara")
      = Return (PList out)
    ∧ out ≡ₚ enriched <$> futures_from world_two_places 0
        [candidate (PInt 7) (PStr "20.67") (PStr "-103.35") (PStr "Guadalajara");
         candidate (PInt 8) (PStr "40.63") (PStr "-3.16") PNone]
    ∧ ∀ item, item ∈ out →
        ∃ i c v,
          [candidate (PInt 7) (PStr "20.67") (PStr "-103.35") (PStr "Guadalajara");
           candidate (PInt 8) (PStr "40.63") (PStr "-3.16") PNone] !! i = Some c
          ∧ result (fetch_task world_two_places i c) = Return v
          ∧ item = with_weather c v
          ∧ field item "weather" = v
          ∧ field item "id" = field c "id" ∧ field item "lat" = field c "lat"
          ∧ field item "long" = field c "long"
          ∧ field item "city_name" = field c "city_name".
Proof.
  apply (aggregator_pairs_candidates_with_forecasts world_two_places "Guadalajara").
  - by vm_compute.
  - discriminate.
  - intros [|[|i]] c [= <-]; eexists; by vm_compute.
Defined.

Lemma futures_all_returned_or_one_raised (l : list (future * pyval)) :
  Forall (λ p, ∃ v, fut_outcome p.1 = Return v) l
  ∨ Exists (λ p, ∃ e, fut_outcome p.1 = Raise e) l.
Proof.
  induction l as [|p l [IH|IH]]; [by left| |by right; right].
  destruct (fut_outcome p.1) as [v|e] eqn:Ho.
  - left. constructor; eauto.
  - right. left. eauto.
Qed.

(** X15: the aggregator returns the empty list only when the resolver
    yielded no candidates: with candidates, it returns one item for each
    or it raises. *)
Theorem aggregator_empty_only_without_candidates w city :
  result (WeatherService.get_city_and_weather_info w city) = Return (PList []) →
  ∃ v, result (WeatherService.get_city_coordinates w city) = Return v
       ∧ py_truthy v = false.
Proof.
  intros Hagg.
  destruct (result (WeatherService.get_city_coordinates w city)) as [v|e] eqn:Hres.
  - exists v. split; [done|]. destruct (py_truthy v) eqn:Hv; [exfalso|done].
    destruct (get_city_coordinates_returns w city v Hres) as [->|(cands & -> & _)];
      [done|].
    assert (cands ≠ []) as Hne by (by intros ->).
    destruct (aggregator_run w city cands Hres Hne) as [Hd Hrun].
    rewrite Hrun, result_prefix in Hagg.
    set (order := as_completed (completion w) (futures_from w 0 cands)) in *.
    assert (Forall (λ p : future * pyval, is_dict p.2) order) as Hdicts.
    { subst order. rewrite as_completed_Permutation. by apply futures_all_dicts. }
    destruct (futures_all_returned_or_one_raised order) as [Hall|Hex].
    + rewrite collect_loop_ok, bind_mret in Hagg.
      * injection Hagg as Hagg. apply fmap_nil_inv in Hagg.
        assert (length order = length cands) as Hlen.
        { subst order. by rewrite as_completed_Permutation, futures_from_length. }
        rewrite Hagg in Hlen. destruct cands; [done|discriminate Hlen].
      * rewrite Forall_forall in Hall, Hdicts. apply Forall_forall. eauto.
    + destruct (collect_loop_raises order [] Hdicts Hex) as (p & e & _ & _ & Hloop).
      rewrite Hloop in Hagg. discriminate Hagg.
  - rewrite (aggregator_propagates_resolver_failure_aux w city e Hres) in Hagg.
    discriminate Hagg.
Qed.

Lemma aggregator_empty_only_without_candidates_witness :
  ∃ v, result (WeatherService.get_city_coordinates world_no_match "Nonexistentville123")
         = Return v
       ∧ py_truthy v = false.
Proof.
  apply (aggregator_empty_only_without_candidates world_no_match "Nonexistentville123").
  by vm_compute.
Defined.

(** The aggregator when the resolver's value is falsy. *)
Lemma aggregator_falsy_run w city v :
  result (WeatherService.get_city_coordinates w city) = Return v →
  py_truthy v = false →
  WeatherService.get_city_and_weather_info w city
    = ([HttpGet (places_url city)], Return (PList [])).
Proof.
  intros Hres Hv. unfold WeatherService.get_city_and_weather_info.
  rewrite (run_eta (WeatherService.get_city_coordinates w city)).
  by rewrite Hres, get_city_coordinates_trace, bind_prefix, Hv.
Qed.

Lemma fetch_requests_are_no_logs (cands : list pyval) :
  List.filter is_log (fetch_request <$> cands) = [].
Proof. induction cands as [|c cands IH]; [done|]. rewrite fmap_cons. exact IH. Qed.

(** The aggregator writes no log record. *)
Lemma aggregator_logs_nothing w city :
  List.filter is_log (trace (WeatherService.get_city_and_weather_info w city)) = [].
Proof.
  destruct (result (WeatherService.get_city_coordinates w city)) as [v|e] eqn:Hres.
  - destruct (get_city_coordinates_returns w city v Hres) as [->|(cands & -> & _)].
    + by rewrite (aggregator_falsy_run w city (PDict ∅)).
    + rewrite (aggregator_trace_of_candidates w city cands Hres). simpl.
      apply fetch_requests_are_no_logs.
  - by rewrite (aggregator_propagates_resolver_failure_aux w city e Hres).
Qed.

(** ** The request handler, on every request *)

Lemma trace_pair {A} (tr : list event) (o : outcome A) : trace (tr, o) = tr.
Proof. reflexivity. Qed.

(** What the handler does, by the outcome of the aggregator. *)
Lemma get_after_aggregator w request city :
  QueryDict_get (GET request) "city" = Some city → city ≠ "" →
  WeatherForecastView.get w request
  = match result (WeatherService.get_city_and_weather_info w city) with
    | Return v =>
        (trace (WeatherService.get_city_and_weather_info w city),
         Return (if py_truthy v then MkJsonResponse v 200
                 else WeatherForecastView.error_response "City not found" 404))
    | Raise e =>
        (trace (WeatherService.get_city_and_weather_info w city)
           ++ [LogError (log_text e) city e],
         Return generic_error)
    end.
Proof.
  intros Hq Hcity. rewrite (get_with_city w request city) by done.
  destruct (WeatherService.get_city_and_weather_info w city) as [tr [v|e]].
  - unfold result, trace. cbn [fst snd]. rewrite bind_prefix.
    unfold try_except, prefix.
    destruct (py_truthy v); cbn [negb fst snd]; by rewrite app_nil_r.
  - reflexivity.
Qed.

Lemma get_without_city w request :
  QueryDict_get (GET request) "city" = None
  ∨ QueryDict_get (GET request) "city" = Some "" →
  WeatherForecastView.get w request
    = ([], Return (WeatherForecastView.error_response "City name is required" 400)).
Proof. intros Hq. unfold WeatherForecastView.get. by destruct Hq as [-> | ->]. Qed.

Lemma city_parameter_cases (request : HttpRequest) :
  (QueryDict_get (GET request) "city" = None
   ∨ QueryDict_get (GET request) "city" = Some "")
  ∨ ∃ city, QueryDict_get (GET request) "city" = Some city ∧ city ≠ "".
Proof.
  destruct (QueryDict_get (GET request) "city") as [city|]; [|by left; left].
  destruct (decide (city = "")) as [->|Hne]; [by left; right|]. right. eauto.
Qed.

(** X16: when the [city] parameter is there and the aggregator returns a
    non-empty list, the answer is 200 with that list as its body, and
    nothing is logged. *)
Theorem handler_success w request city out :
  QueryDict_get (GET request) "city" = Some city → city ≠ "" →
  result (WeatherService.get_city_and_weather_info w city) = Return (PList out) →
  out ≠ [] →
  WeatherForecastView.get w request
    = (trace (WeatherService.get_city_and_weather_info w city),
       Return (MkJsonResponse (PList out) 200))
  ∧ List.filter is_log (trace (WeatherForecastView.get w request)) = [].
Proof.
  intros Hq Hcity Hres Hout.
  assert (WeatherForecastView.get w request
          = (trace (WeatherService.get_city_and_weather_info w city),
             Return (MkJsonResponse (PList out) 200))) as Hrun.
  { rewrite (get_after_aggregator w request city), Hres by done.
    by destruct out. }
  split; [done|]. rewrite Hrun. apply aggregator_logs_nothing.
Qed.

Lemma handler_success_witness :
  ∃ out,
    WeatherForecastView.get world_two_places (MkHttpRequest [("city", "Guadalajara")])
      = (trace (WeatherService.get_city_and_weather_info world_two_places "Guadalajara"),
         Return (MkJsonResponse (PList out) 200))
    ∧ List.filter is_log
        (trace (WeatherForecastView.get world_two_places
                  (MkHttpRequest [("city", "Guadalajara")]))) = [].
Proof.
  exists (enriched <$> as_completed (completion world_two_places)
            (futures_from world_two_places 0
               [candidate (PInt 7) (PStr "20.67") (PStr "-103.35") (PStr "Guadalajara");
                candidate (PInt 8) (PStr "40.63") (PStr "-3.16") PNone])).
  apply (handler_success world_two_places (MkHttpRequest [("city", "Guadalajara")])
           "Guadalajara").
  - reflexivity.
  - discriminate.
  - by vm_compute.
  - discriminate.
Defined.

(** X17: the handler never raises: whatever the request and whatever the
    upstreams do, it returns a response, whose status is 200, 400, 404 or
    500, and whose body, when the status is not 200, is an object with the
    single key [error] and a message. *)
Theorem handler_never_raises w request :
  ∃ response, result (WeatherForecastView.get w request) = Return response
    ∧ (status response = 200 ∨ status response = 400
       ∨ status response = 404 ∨ status response = 500)%Z
    ∧ (status response ≠ 200%Z →
         ∃ message, content response = PDict {["error" := PStr message]}).
Proof.
  destruct (city_parameter_cases request) as [Hq|(city & Hq & Hcity)].
  - rewrite (get_without_city w request Hq). eexists. split; [reflexivity|].
    simpl. split; [tauto|]. eauto.
  - rewrite (get_after_aggregator w request city Hq Hcity).
    destruct (result (WeatherService.get_city_and_weather_info w city)) as [v|e].
    + eexists. split; [reflexivity|]. destruct (py_truthy v); simpl.
      * split; [tauto|done].
      * split; [tauto|]. eauto.
    + eexists. split; [reflexivity|]. simpl. split; [tauto|]. eauto.
Qed.

(** X18: the handler writes to the log exactly when it answers 500, and
    then one record, which holds the city name and the exception. *)
Theorem handler_logs_only_on_500 w request response :
  result (WeatherForecastView.get w request) = Return response →
  (status response = 500%Z →
     ∃ city e, QueryDict_get (GET request) "city" = Some city
       ∧ result (WeatherService.get_city_and_weather_info w city) = Raise e
       ∧ List.filter is_log (trace (WeatherForecastView.get w request))
         = [LogError (log_text e) city e])
  ∧ (status response ≠ 500%Z →
       List.filter is_log (trace (WeatherForecastView.get w request)) = []).
Proof.
  destruct (city_parameter_cases request) as [Hq|(city & Hq & Hcity)].
  - rewrite (get_without_city w request Hq). intros [= <-]. by split.
  - rewrite (get_after_aggregator w request city Hq Hcity).
    destruct (result (WeatherService.get_city_and_weather_info w city)) as [v|e] eqn:Hres.
    + intros [= <-]. rewrite !trace_pair.
      split; [by destruct (py_truthy v)|]. intros _. apply aggregator_logs_nothing.
    + intros [= <-]. rewrite !trace_pair.
      rewrite List.filter_app, aggregator_logs_nothing. simpl.
      split; [|done]. intros _. exists city, e. done.
Qed.

Lemma handler_logs_only_on_500_witness :
  (status generic_error = 500%Z →
     ∃ city e,
       QueryDict_get (GET (MkHttpRequest [("city", "Guadalajara")])) "city" = Some city
       ∧ result (WeatherService.get_city_and_weather_info world_weather_down city) = Raise e
       ∧ List.filter is_log
           (trace (WeatherForecastView.get world_weather_down
                     (MkHttpRequest [("city", "Guadalajara")])))
         = [LogError (log_text e) city e])
  ∧ (status generic_error ≠ 500%Z →
       List.filter is_log
         (trace (WeatherForecastView.get world_weather_down
                   (MkHttpRequest [("city", "Guadalajara")]))) = []).
Proof.
  apply (handler_logs_only_on_500 world_weather_down
           (MkHttpRequest [("city", "Guadalajara")]) generic_error).
  by vm_compute.
Defined.

(** ** From the request to the response *)

(** X19: when the place search answers with a status from 400 to 599, the
    handler answers 500 with the generic body, after that one request, and
    logs the HTTP error with the city name. *)
Theorem handler_place_search_error w request city s reason body :
  QueryDict_get (GET request) "city" = Some city → city ≠ "" →
  places_api w (places_url city) = Response s reason body →
  (400 ≤ s < 600)%Z →
  WeatherForecastView.get w request
    = ([HttpGet (places_url city);
        LogError "HTTP error occurred for city" city (HTTPError s reason)],
       Return generic_error).
Proof.
  intros Hq Hcity Hup Hs.
  assert (WeatherService.get_city_coordinates w city
          = ([HttpGet (places_url city)], Raise (HTTPError s reason))) as Hres.
  { unfold WeatherService.get_city_coordinates.
    rewrite requests_get_bind. change (Request _ _) with (places_url city).
    rewrite Hup, raise_for_status_error by done. by rewrite bind_raise. }
  rewrite (get_after_aggregator w request city Hq Hcity).
  rewrite (aggregator_propagates_resolver_failure_aux w city (HTTPError s reason));
    [done|by rewrite Hres].
Qed.

Lemma handler_place_search_error_witness :
  WeatherForecastView.get world_places_error (MkHttpRequest [("city", "Guadalajara")])
    = ([HttpGet (places_url "Guadalajara");
        LogError "HTTP error occurred for city" "Guadalajara"
          (HTTPError 503 "Service Unavailable")],
       Return generic_error).
Proof.
  apply (handler_place_search_error world_places_error
           (MkHttpRequest [("city", "Guadalajara")]) "Guadalajara"
           503%Z "Service Unavailable" None).
  - reflexivity.
  - discriminate.
  - reflexivity.
  - lia.
Defined.

Lemma filter_all_false {A} (keep : A → bool) (xs : list A) :
  Forall (λ x, keep x = false) xs → List.filter keep xs = [].
Proof.
  induction 1 as [|x xs Hx _ IH]; [done|]. simpl. by rewrite Hx.
Qed.

(** X20: when the place search answers with an array of objects none of
    which has a truthy [id], [lat] and [long] (the empty array among them),
    the handler answers 404 "City not found" after that one request: no
    forecast is asked for and nothing is logged. *)
Theorem handler_no_usable_place w request city s reason rs :
  QueryDict_get (GET request) "city" = Some city → city ≠ "" →
  places_api w (places_url city) = Response s reason (Some (PList rs)) →
  status_ok s → Forall is_dict rs →
  Forall (λ res, all_truthy res = false) rs →
  WeatherForecastView.get w request
    = ([HttpGet (places_url city)],
       Return (MkJsonResponse (PDict {["error" := PStr "City not found"]}) 404)).
Proof.
  intros Hq Hcity Hup Hs Hrs Hnone.
  pose proof (get_city_coordinates_run w city s reason rs Hup Hs Hrs) as Hres.
  rewrite (filter_all_false _ _ Hnone) in Hres.
  rewrite (get_after_aggregator w request city Hq Hcity).
  rewrite (aggregator_falsy_run w city
             (if py_truthy (PList rs) then PList [] else PDict ∅)).
  - reflexivity.
  - by rewrite Hres.
  - by destruct (py_truthy (PList rs)).
Qed.

Lemma handler_no_usable_place_witness :
  WeatherForecastView.get world_zero_id (MkHttpRequest [("city", "Guadalajara")])
    = ([HttpGet (places_url "Guadalajara")],
       Return (MkJsonResponse (PDict {["error" := PStr "City not found"]}) 404)).
Proof.
  apply (handler_no_usable_place world_zero_id (MkHttpRequest [("city", "Guadalajara")])
           "Guadalajara" 200%Z "OK"
           [place (PInt 0) (PStr "20.67") (PStr "-103.35") (PStr "Guadalajara")]).
  - reflexivity.
  - discriminate.
  - reflexivity.
  - sample_status.
  - sample_dicts.
  - repeat constructor.
Defined.

(** X21: when the place search answers with an array of objects of which
    some have a truthy [id], [lat] and [long], and the fetch of each of
    those succeeds, the handler answers 200 with one item for each of them;
    its requests are the place search, first, and then, in some order, one
    forecast request for each of them, and nothing else happens. *)
Theorem handler_answers_every_usable_place w request city s reason rs :
  QueryDict_get (GET request) "city" = Some city → city ≠ "" →
  places_api w (places_url city) = Response s reason (Some (PList rs)) →
  status_ok s → Forall is_dict rs →
  List.filter all_truthy rs ≠ [] →
  (∀ i c, (candidate_of <$> List.filter all_truthy rs) !! i = Some c →
          ∃ v, result (fetch_task w i c) = Return v) →
  ∃ out fetches,
    WeatherForecastView.get w request
      = (HttpGet (places_url city) :: fetches,
         Return (MkJsonResponse (PList out) 200))
    ∧ fetches ≡ₚ fetch_request <$> (candidate_of <$> List.filter all_truthy rs)
    ∧ length out = length (List.filter all_truthy rs).
Proof.
  intros Hq Hcity Hup Hs Hrs Hsome Hfetch.
  set (cands := candidate_of <$> List.filter all_truthy rs) in *.
  assert (result (WeatherService.get_city_coordinates w city) = Return (PList cands))
    as Hres.
  { rewrite (get_city_coordinates_run w city s reason rs Hup Hs Hrs).
    destruct rs; [done|reflexivity]. }
  assert (cands ≠ []) as Hne.
  { subst cands. intros Hnil. by apply fmap_nil_inv in Hnil. }
  pose proof (aggregator_output w city cands Hres Hne Hfetch) as Hout.
  pose proof (aggregator_trace_of_candidates w city cands Hres) as Htr.
  exists (enriched <$> as_completed (completion w) (futures_from w 0 cands)),
         (fetch_request <$> cands).
  split; [|split; [done|]].
  - rewrite (get_after_aggregator w request city Hq Hcity), Hout, Htr.
    assert (py_truthy (PList (enriched <$> as_completed (completion w)
                                (futures_from w 0 cands))) = true) as ->; [|done].
    simpl. rewrite length_fmap, as_completed_Permutation, futures_from_length.
    by destruct cands.
  - rewrite length_fmap, as_completed_Permutation, futures_from_length.
    subst cands. by rewrite length_fmap.
Qed.

Lemma handler_answers_every_usable_place_witness :
  ∃ out fetches,
    WeatherForecastView.get world_two_places (MkHttpRequest [("city", "Guadalajara")])
      = (HttpGet (places_url "Guadalajara") :: fetches,
         Return (MkJsonResponse (PList out) 200))
    ∧ fetches ≡ₚ fetch_request <$> (candidate_of <$> List.filter all_truthy
        [place (PInt 7) (PStr "20.67") (PStr "-103.35") (PStr "Guadalajara");
         place (PInt 8) (PStr "40.63") (PStr "-3.16") PNone])
    ∧ length out = length (List.filter all_truthy
        [place (PInt 7) (PStr "20.67") (PStr "-103.35") (PStr "Guadalajara");
         place (PInt 8) (PStr "40.63") (PStr "-3.16") PNone]).
Proof.
  apply (handler_answers_every_usable_place world_two_places
           (MkHttpRequest [("city", "Guadalajara")]) "Guadalajara" 200%Z "OK").
  - reflexivity.
  - discriminate.
  - reflexivity.
  - sample_status.
  - sample_dicts.
  - discriminate.
  - intros [|[|i]] c [= <-]; eexists; by vm_compute.
Defined.

(** X22: a non-empty [city] parameter reaches the place search as it is,
    blanks and all: the first request of the handler is the place search
    with that very string for [q]. *)
Theorem handler_forwards_city_verbatim w request city :
  QueryDict_get (GET request) "city" = Some city → city ≠ "" →
  ∃ rest, trace (WeatherForecastView.get w request)
          = HttpGet (Request "https://search.reservamos.mx/api/v2/places"
                       [("q", PStr city)]) :: rest.
Proof.
  intros Hq Hcity. rewrite (get_after_aggregator w request city Hq Hcity).
  destruct (aggregator_trace_begins w city) as [tr Htr].
  destruct (result (WeatherService.get_city_and_weather_info w city)) as [v|e];
    rewrite trace_pair, Htr; eauto.
Qed.

Lemma handler_forwards_city_verbatim_witness :
  ∃ rest, trace (WeatherForecastView.get world_no_match (MkHttpRequest [("city", "  ")]))
          = HttpGet (Request "https://search.reservamos.mx/api/v2/places"
                       [("q", PStr "  ")]) :: rest.
Proof.
  apply (handler_forwards_city_verbatim world_no_match (MkHttpRequest [("city", "  ")])).
  - reflexivity.
  - discriminate.
Defined.

(** [QueryDict.get] answers with the value of the last pair for the
    key, whatever comes before it and whatever pairs for other keys come
    after it. *)
Lemma QueryDict_get_last (before after : list (string * string)) (key value : string) :
  Forall (λ kv, kv.1 ≠ key) after →
  QueryDict_get (before ++ (key, value) :: after) key = Some value.
Proof.
  intros Hafter. unfold QueryDict_get.
  rewrite filter_app, filter_cons, decide_True by done.
  assert (filter (λ kv : string * string, kv.1 = key) after = []) as ->.
  { induction Hafter as [|kv after Hkv _ IH]; [done|].
    by rewrite filter_cons, decide_False. }
  rewrite fmap_app. simpl. apply last_snoc.
Qed.

(** X23: when the query string gives [city] several times, the last value
    decides, wherever the other parameters stand: the handler behaves as
    if that value were the only parameter. *)
Theorem handler_last_city_wins w (before after : list (string * string)) (city : string) :
  Forall (λ kv, kv.1 ≠ "city") after →
  WeatherForecastView.get w (MkHttpRequest (before ++ ("city", city) :: after))
    = WeatherForecastView.get w (MkHttpRequest [("city", city)]).
Proof.
  intros Hafter. unfold WeatherForecastView.get. simpl GET.
  rewrite (QueryDict_get_last before after) by done.
  change [("city", city)] with ([] ++ ("city", city) :: []).
  by rewrite (QueryDict_get_last [] []).
Qed.

Lemma handler_last_city_wins_witness :
  WeatherForecastView.get world_two_places
      (MkHttpRequest [("city", "a"); ("city", "b"); ("lang", "es")])
    = WeatherForecastView.get world_two_places (MkHttpRequest [("city", "b")]).
Proof.
  apply (handler_last_city_wins world_two_places [("city", "a")] [("lang", "es")] "b").
  repeat constructor. discriminate.
Defined.

Lemma handler_never_raises_witness :
  ∃ response,
    result (WeatherForecastView.get world_weather_down
              (MkHttpRequest [("city", "Guadalajara")])) = Return response
    ∧ (status response = 200 ∨ status response = 400
       ∨ status response = 404 ∨ status response = 500)%Z
    ∧ (status response ≠ 200%Z →
         ∃ message, content response = PDict {["error" := PStr message]}).
Proof.
  apply (handler_never_raises world_weather_down (MkHttpRequest [("city", "Guadalajara")])).
Defined.
